(** * Workflow engine: the graph interpreter of [main.py]

    A shallow embedding of [WorkflowEngine] (construction, edge map,
    condition evaluation, next-node selection and the [execute] loop)
    together with the Python values the engine manipulates.

    Modelling conventions.
    - A Python [dict] with string keys is an insertion-ordered association
      list with unique keys: assignment replaces the value of a present key
      in place and appends an absent one, as CPython does.  The order is
      observable ([list(self.nodes.keys())[0]] is the entry node).
    - [self.edges] and the global [tool_registry] are only ever looked up by
      key, so they are finite maps ([gmap]).
    - Values are None, bool, int, str, list and dict; floats and arbitrary
      objects are outside the model.
    - Raised exceptions are explicit: an operation that can raise returns a
      [result].
    - [datetime.now().isoformat()] is a clock [now] read at a tick counter
      that advances with every reading.
    - The host evaluator [eval] and the tools are parameters, and the
      engine is given twice.  In the first engine [py_eval] is a total
      function of the expression and the state that yields a value or
      raises, and a tool is a function of the state and the node's
      parameters whose call either returns a mapping or raises an
      [Exception]: collaborators that only read the state.  The call
      expression [tool_func(state, **params)] as a whole is what a
      [Callable] denotes, so a failure to bind the keyword arguments is one
      of its [Raised] outcomes.
    - [main.py] hands the state dict itself to [eval] and to the tool.  In
      the second engine (module [Live]) both return the state they leave
      behind as well, and a tool call can end in an exception that
      [except Exception] does not catch.  The two engines agree on
      collaborators that only read the state ([reading_execute]).  What is
      stated about the iteration cap and about the integrity of [_meta] is
      stated on the second engine.
    - The optional websocket mirror of a log entry has no effect on the
      state or on the log (its failures are swallowed) and is left out.
    - The [while] loop carries a fuel argument that bounds the number of
      visits; [None] means the fuel ran out before the loop ended.

    Beside the engine the development covers the registration of tools,
    the workflow definition of [setup_workflow.py], the HTTP handlers
    [create_graph], [run_graph], [get_run_state] and [health_check] over
    explicit stores, and the tool [detect_issues].  The tools that parse
    Python source or compute with floats are not modelled. *)

From Stdlib Require Import ZArith String List Bool Lia.
From stdpp Require Import base strings pretty gmap.
Import ListNotations.
Local Open Scope string_scope.
Local Open Scope list_scope.
Local Open Scope Z_scope.

(** ** Python values *)

#[local] Set Warnings "-register-all".

Inductive value : Type :=
| VNone
| VBool (b : bool)
| VInt (z : Z)
| VStr (s : string)
| VList (l : list value)
| VDict (d : list (string * value)).

Abbreviation pydict := (list (string * value)).

Inductive py_exn : Type :=
| KeyError (key : string)
| TypeError
| SyntaxError
| OtherException (name : string).

Inductive result (A : Type) : Type :=
| Ok (a : A)
| Raise (e : py_exn).

Arguments Ok {A} a.
Arguments Raise {A} e.

Definition bind {A B : Type} (m : result A) (k : A -> result B) : result B :=
  match m with
  | Ok a => k a
  | Raise e => Raise e
  end.

Notation "x <- m ;; k" := (bind m (fun x => k))
  (at level 100, m at next level, right associativity).

(** ** Dictionaries with insertion order *)

Section Dict.
Context {A : Type}.

(** [d.get(k)] as an option *)
Fixpoint dict_get (d : list (string * A)) (k : string) : option A :=
  match d with
  | [] => None
  | (k', v) :: rest => if String.eqb k' k then Some v else dict_get rest k
  end.

(** [d[k] = v] *)
Fixpoint dict_set (d : list (string * A)) (k : string) (v : A)
  : list (string * A) :=
  match d with
  | [] => [(k, v)]
  | (k', v') :: rest =>
      if String.eqb k' k then (k', v) :: rest
      else (k', v') :: dict_set rest k v
  end.

(** [d.update(r)] *)
Definition dict_update (d r : list (string * A)) : list (string * A) :=
  fold_left (fun acc kv => dict_set acc (fst kv) (snd kv)) r d.

(** [list(d.keys())] *)
Definition dict_keys (d : list (string * A)) : list string := map fst d.

(** [d[k]] *)
Definition dict_getitem (d : list (string * A)) (k : string) : result A :=
  match dict_get d k with
  | Some v => Ok v
  | None => Raise (KeyError k)
  end.
End Dict.

(** ** Operations on values *)

(** [bool(v)] *)
Definition py_truthy (v : value) : bool :=
  match v with
  | VNone => false
  | VBool b => b
  | VInt z => negb (z =? 0)
  | VStr s => negb (String.eqb s "")
  | VList l => match l with [] => false | _ => true end
  | VDict d => match d with [] => false | _ => true end
  end.

(** [a == b] *)
Fixpoint py_eq (a b : value) {struct a} : bool :=
  match a, b with
  | VNone, VNone => true
  | VBool x, VBool y => Bool.eqb x y
  | VBool x, VInt y => Z.b2z x =? y
  | VInt x, VBool y => x =? Z.b2z y
  | VInt x, VInt y => x =? y
  | VStr x, VStr y => String.eqb x y
  | VList xs, VList ys =>
      (fix all_eq (xs ys : list value) : bool :=
         match xs, ys with
         | [], [] => true
         | x :: xs', y :: ys' => py_eq x y && all_eq xs' ys'
         | _, _ => false
         end) xs ys
  | VDict d1, VDict d2 =>
      Nat.eqb (length d1) (length d2) &&
      (fix all_in (d : list (string * value)) : bool :=
         match d with
         | [] => true
         | (k, v) :: d' =>
             match dict_get d2 k with
             | Some w => py_eq v w
             | None => false
             end && all_in d'
         end) d1
  | _, _ => false
  end.

(** [a < b]; [None] stands for the TypeError of unorderable operands *)
Fixpoint py_lt (a b : value) {struct a} : option bool :=
  match a, b with
  | VBool x, VBool y => Some (Z.b2z x <? Z.b2z y)
  | VBool x, VInt y => Some (Z.b2z x <? y)
  | VInt x, VBool y => Some (x <? Z.b2z y)
  | VInt x, VInt y => Some (x <? y)
  | VStr x, VStr y => Some (String.ltb x y)
  | VList xs, VList ys =>
      (fix lex (xs ys : list value) : option bool :=
         match xs, ys with
         | [], [] => Some false
         | [], _ :: _ => Some true
         | _ :: _, [] => Some false
         | x :: xs', y :: ys' => if py_eq x y then lex xs' ys' else py_lt x y
         end) xs ys
  | _, _ => None
  end.

(** [v + n] for an int [n] *)
Definition py_add_int (v : value) (n : Z) : result value :=
  match v with
  | VInt z => Ok (VInt (z + n))
  | VBool b => Ok (VInt (Z.b2z b + n))
  | _ => Raise TypeError
  end.

(** [v[k]] for a string [k] *)
Definition py_getitem (v : value) (k : string) : result value :=
  match v with
  | VDict d => dict_getitem d k
  | _ => Raise TypeError
  end.

(** [v[k] = x] for a string [k] *)
Definition py_setitem (v : value) (k : string) (x : value) : result value :=
  match v with
  | VDict d => Ok (VDict (dict_set d k x))
  | _ => Raise TypeError
  end.

(** [state['_meta'][k]] *)
Definition meta_get (state : pydict) (k : string) : result value :=
  m <- dict_getitem state "_meta" ;; py_getitem m k.

(** [state['_meta'][k] = x]: the nested dict is updated in place *)
Definition meta_set (state : pydict) (k : string) (x : value) : result pydict :=
  m <- dict_getitem state "_meta" ;;
  m' <- py_setitem m k x ;;
  Ok (dict_set state "_meta" m').

(** [state['_meta']['iterations'] += 1] *)
Definition bump_iterations (state : pydict) : result pydict :=
  i <- meta_get state "iterations" ;;
  i' <- py_add_int i 1 ;;
  meta_set state "iterations" i'.

(** ** The graph definition *)

Record NodeConfig : Type := {
  name : string;
  tool : string;
  params : option pydict
}.

Record EdgeConfig : Type := {
  from_node : string;
  to_node : string;
  condition : option string
}.

(** What a call [tool_func(state, **params)] does *)
Inductive tool_outcome : Type :=
| Returned (output : pydict)
| Raised (msg : string).

Definition Callable : Type := pydict -> option pydict -> tool_outcome.

(** What [eval(condition, {"state": state})] does *)
Inductive eval_outcome : Type :=
| Evaluated (v : value)
| EvalRaised (e : py_exn).

Record WorkflowEngine : Type := {
  graph_id : string;
  nodes : list (string * NodeConfig);
  edges : gmap string (list (string * option string));
  execution_log : list value
}.

(** One round of the [for edge in edges] loop of [_build_edge_map] *)
Definition edge_map_add (edge_map : gmap string (list (string * option string)))
    (edge : EdgeConfig) : gmap string (list (string * option string)) :=
  let edge_map :=
    match edge_map !! from_node edge with
    | None => <[from_node edge := []]> edge_map
    | Some _ => edge_map
    end in
  <[from_node edge :=
      default [] (edge_map !! from_node edge)
        ++ [(to_node edge, condition edge)]]> edge_map.

Definition _build_edge_map (edges : list EdgeConfig)
  : gmap string (list (string * option string)) :=
  fold_left edge_map_add edges ∅.

(** [{node.name: node for node in nodes}] *)
Definition node_map (nodes : list NodeConfig) : list (string * NodeConfig) :=
  fold_left (fun acc node => dict_set acc (name node) node) nodes [].

(** [WorkflowEngine.__init__] *)
Definition WorkflowEngine_init (graph_id : string) (nodes : list NodeConfig)
    (edges : list EdgeConfig) : WorkflowEngine :=
  {| graph_id := graph_id;
     nodes := node_map nodes;
     edges := _build_edge_map edges;
     execution_log := [] |}.

(** Why the [while] loop was left: the first conjunct of its test was
    falsy (no next node), or the second one was (the iteration cap). *)
Inductive exit_reason : Type :=
| Completed
| MaxIterationsExceeded.

Inductive loop_test : Type :=
| Enter (current_node : string)
| Leave (why : exit_reason).

Record run : Type := {
  final_state : pydict;
  run_log : list value;
  exit_status : exit_reason
}.

Section Engine.
Variable now : nat -> string.
Variable py_eval : string -> pydict -> eval_outcome.
Variable tool_registry : gmap string Callable.

(** [_evaluate_condition]; the returned object is whatever [eval] gave *)
Definition _evaluate_condition (condition : option string) (state : pydict)
  : value :=
  match condition with
  | None => VBool true
  | Some c =>
      if String.eqb c "" then VBool true
      else match py_eval c state with
           | Evaluated v => v
           | EvalRaised _ => VBool false
           end
  end.

(** The [for next_node, condition in self.edges[current_node]] loop *)
Fixpoint first_active (out : list (string * option string)) (state : pydict)
  : option string :=
  match out with
  | [] => None
  | (next_node, condition) :: rest =>
      if py_truthy (_evaluate_condition condition state) then Some next_node
      else first_active rest state
  end.

(** [_get_next_node] *)
Definition _get_next_node (self : WorkflowEngine) (current_node : string)
    (state : pydict) : option string :=
  match edges self !! current_node with
  | None => None
  | Some out => first_active out state
  end.

(** The test of the [while] loop:
    [current_node and iterations < max_iterations] *)
Definition loop_guard (current_node : option string) (state : pydict)
  : result loop_test :=
  match current_node with
  | None => Ok (Leave Completed)
  | Some n =>
      if String.eqb n "" then Ok (Leave Completed)
      else
        i <- meta_get state "iterations" ;;
        m <- meta_get state "max_iterations" ;;
        match py_lt i m with
        | Some true => Ok (Enter n)
        | Some false => Ok (Leave MaxIterationsExceeded)
        | None => Raise TypeError
        end
  end.

(** The [if node_config.tool in tool_registry] statement: the state and
    the log entry after it *)
Definition invoke (node_config : NodeConfig) (state log_entry : pydict)
  : pydict * pydict :=
  match tool_registry !! tool node_config with
  | Some tool_func =>
      match tool_func state (params node_config) with
      | Returned output =>
          let state := dict_update state output in
          let log_entry := dict_set log_entry "status" (VStr "success") in
          let log_entry := dict_set log_entry "output" (VDict output) in
          (state, log_entry)
      | Raised msg =>
          let log_entry := dict_set log_entry "status" (VStr "error") in
          let log_entry := dict_set log_entry "error" (VStr msg) in
          let state := dict_set state "_error" (VStr msg) in
          (state, log_entry)
      end
  | None =>
      (state, dict_set log_entry "status" (VStr "tool_not_found"))
  end.

(** The body of the [while] loop: one node visit.  It yields the state,
    the log and the next [current_node]. *)
Definition visit (self : WorkflowEngine) (state : pydict)
    (current_node : string) (log : list value) (tick : nat)
  : result (pydict * list value * option string) :=
  node_config <- dict_getitem (nodes self) current_node ;;
  iteration <- meta_get state "iterations" ;;
  let log_entry :=
    [("node", VStr current_node);
     ("timestamp", VStr (now tick));
     ("iteration", iteration)] in
  let '(state, log_entry) := invoke node_config state log_entry in
  let log := log ++ [VDict log_entry] in
  state <- bump_iterations state ;;
  Ok (state, log, _get_next_node self current_node state).

(** The [while] loop of [execute] *)
Fixpoint run_loop (fuel : nat) (self : WorkflowEngine) (state : pydict)
    (current_node : option string) (log : list value) (tick : nat)
  : option (result (pydict * list value * nat * exit_reason)) :=
  match loop_guard current_node state with
  | Raise e => Some (Raise e)
  | Ok (Leave why) => Some (Ok (state, log, tick, why))
  | Ok (Enter n) =>
      match fuel with
      | O => None
      | S fuel' =>
          match visit self state n log tick with
          | Raise e => Some (Raise e)
          | Ok (state', log', next) =>
              run_loop fuel' self state' next log' (S tick)
          end
      end
  end.

(** The state the loop starts from *)
Definition initial_meta : value :=
  VDict [("start_time", VStr (now 0));
         ("iterations", VInt 0);
         ("max_iterations", VInt 50)].

Definition start_state (initial_state : pydict) : pydict :=
  dict_set initial_state "_meta" initial_meta.

(** [list(self.nodes.keys())[0] if self.nodes else None] *)
Definition entry_node (self : WorkflowEngine) : option string :=
  head (dict_keys (nodes self)).

(** The two assignments after the loop *)
Definition finish (state : pydict) (log : list value) (tick : nat)
  : result pydict :=
  state <- meta_set state "end_time" (VStr (now tick)) ;;
  meta_set state "execution_log" (VList log).

(** [WorkflowEngine.execute] *)
Definition execute (fuel : nat) (self : WorkflowEngine)
    (initial_state : pydict) : option (result run) :=
  match run_loop fuel self (start_state initial_state) (entry_node self)
          (execution_log self) 1 with
  | None => None
  | Some (Raise e) => Some (Raise e)
  | Some (Ok (state, log, tick, why)) =>
      Some (state <- finish state log tick ;;
            Ok {| final_state := state; run_log := log;
                  exit_status := why |})
  end.

(** The configurations at which the [while] test is evaluated during
    [execute self initial_state] *)
Inductive loop_head (self : WorkflowEngine) (initial_state : pydict)
  : pydict -> option string -> list value -> nat -> Prop :=
| head_start :
    loop_head self initial_state (start_state initial_state)
      (entry_node self) (execution_log self) 1
| head_next state current_node n log tick state' log' next :
    loop_head self initial_state state current_node log tick ->
    loop_guard current_node state = Ok (Enter n) ->
    visit self state n log tick = Ok (state', log', next) ->
    loop_head self initial_state state' next log' (S tick).
End Engine.

(** ** Vocabulary of the statements *)

(** The edges leaving [n], in declaration order *)
Definition outgoing (edges : list EdgeConfig) (n : string)
  : list (string * option string) :=
  map (fun e => (to_node e, condition e))
      (List.filter (fun e => String.eqb (from_node e) n) edges).

(** No registered tool ever returns a mapping with a [_meta] key. *)
Definition keeps_meta (tool_registry : gmap string Callable) : Prop :=
  forall tool_name f state params output,
    tool_registry !! tool_name = Some f ->
    f state params = Returned output ->
    dict_get output "_meta" = None.

(** ** Concrete collaborators used by the closed examples *)

(** A clock whose reading is the tick itself *)
Definition tick_clock (tick : nat) : string := pretty tick.

(** [eval] on the handful of expressions the examples use; any other
    string is rejected as a syntax error. *)
Definition eval_demo (c : string) (state : pydict) : eval_outcome :=
  if String.eqb c "state['score'] < 70" then
    match dict_get state "score" with
    | None => EvalRaised (KeyError "score")
    | Some v =>
        match py_lt v (VInt 70) with
        | Some b => Evaluated (VBool b)
        | None => EvalRaised TypeError
        end
    end
  else if String.eqb c "True" then Evaluated (VBool true)
  else if String.eqb c "False" then Evaluated (VBool false)
  else EvalRaised SyntaxError.

(** A tool that adds 30 to [state['score']] *)
Definition add_30 : Callable := fun state _ =>
  match dict_get state "score" with
  | None => Raised "'score'"
  | Some v =>
      match py_add_int v 30 with
      | Ok v' => Returned [("score", v')]
      | Raise _ => Raised "unsupported operand type(s) for +"
      end
  end.

(** A tool whose returned mapping carries a [_meta] key with a fresh
    counter *)
Definition reset_meta : Callable := fun _ _ =>
  Returned [("_meta", VDict [("iterations", VInt 0);
                             ("max_iterations", VInt 50)])].

(** A tool whose returned mapping collides with the reserved entry *)
Definition clobber_meta : Callable := fun _ _ =>
  Returned [("_meta", VDict [("iterations", VInt 41);
                             ("max_iterations", VInt 1000)])].

(** A tool that always raises *)
Definition failing : Callable := fun _ _ => Raised "boom".

Definition demo_registry : gmap string Callable :=
  <["add_30" := add_30]>
    (<["reset_meta" := reset_meta]>
       (<["clobber_meta" := clobber_meta]>
          (<["failing" := failing]> ∅))).

Definition score_registry : gmap string Callable := <["add_30" := add_30]> ∅.

Definition node (n t : string) : NodeConfig :=
  {| name := n; tool := t; params := Some [] |}.

Definition edge (a b : string) (c : option string) : EdgeConfig :=
  {| from_node := a; to_node := b; condition := c |}.

(** One node that raises its score, looping on itself while the score is
    below 70 *)
Definition score_engine : WorkflowEngine :=
  WorkflowEngine_init "score" [node "improve" "add_30"]
    [edge "improve" "improve" (Some "state['score'] < 70")].

(** The same node with an unconditional self-loop *)
Definition loop_engine : WorkflowEngine :=
  WorkflowEngine_init "loop" [node "improve" "add_30"]
    [edge "improve" "improve" None].

(** One node with an unconditional self-loop whose tool resets [_meta] *)
Definition spin_engine : WorkflowEngine :=
  WorkflowEngine_init "spin" [node "spin" "reset_meta"]
    [edge "spin" "spin" None].

(** The state of [spin_engine] after each of its visits *)
Definition spin_state : pydict :=
  [("_meta", VDict [("iterations", VInt 1); ("max_iterations", VInt 50)])].

(** One node whose tool clobbers [_meta], no edge *)
Definition clobber_engine : WorkflowEngine :=
  WorkflowEngine_init "clobber" [node "once" "clobber_meta"] [].

(** An edge to a node that was never declared *)
Definition dangling_engine : WorkflowEngine :=
  WorkflowEngine_init "dangling" [node "a" "add_30"]
    [edge "a" "ghost" None].

(** Two node definitions under one name *)
Definition twin_nodes : list NodeConfig :=
  [node "a" "add_30"; node "a" "failing"].

Definition twin_engine : WorkflowEngine :=
  WorkflowEngine_init "twin" twin_nodes [].

(** A node bound to a tool nobody registered, then a second node *)
Definition unbound_engine : WorkflowEngine :=
  WorkflowEngine_init "unbound" [node "a" "nowhere"; node "b" "add_30"]
    [edge "a" "b" None].


(** Three edges out of one node, the first two active *)
Definition fan_edges : list EdgeConfig :=
  [edge "a" "first" (Some "True");
   edge "a" "second" (Some "True");
   edge "a" "third" (Some "False")].

(** ** Vocabulary of the further properties *)

(** A log entry as the loop writes it: a dict whose [status] is one of the
    three the engine knows *)
Definition is_log_entry (v : value) : bool :=
  match v with
  | VDict e =>
      match dict_get e "status" with
      | Some (VStr s) =>
          String.eqb s "success" || String.eqb s "error"
          || String.eqb s "tool_not_found"
      | _ => false
      end
  | _ => false
  end.


(** [entry['status']] of a log entry *)
Definition log_status (v : value) : option value :=
  match v with
  | VDict e => dict_get e "status"
  | _ => None
  end.

(** A tool function that never returns a mapping with a [_meta] key *)
Definition tool_keeps_meta (f : Callable) : Prop :=
  forall state params output,
    f state params = Returned output -> dict_get output "_meta" = None.

(** The entry of a visit whose tool was found and called *)
Definition ran_tool (e : pydict) : Prop :=
  dict_get e "status" = Some (VStr "success") \/
  dict_get e "status" = Some (VStr "error").

(** *** The code review workflow of [setup_workflow.py] *)

(** The condition of the self-loop of [improve] *)
Definition review_condition : string :=
  "state.get('quality_score', 100) < 70 and state['_meta']['iterations'] < 3".

(** The [nodes] of [create_code_review_workflow] *)
Definition review_nodes : list NodeConfig :=
  [{| name := "extract"; tool := "extract_functions"; params := Some [] |};
   {| name := "complexity"; tool := "check_complexity"; params := Some [] |};
   {| name := "issues"; tool := "detect_issues"; params := Some [] |};
   {| name := "improve"; tool := "suggest_improvements";
      params := Some [] |}].

(** The [edges] of [create_code_review_workflow] *)
Definition review_edges : list EdgeConfig :=
  [{| from_node := "extract"; to_node := "complexity"; condition := None |};
   {| from_node := "complexity"; to_node := "issues"; condition := None |};
   {| from_node := "issues"; to_node := "improve"; condition := None |};
   {| from_node := "improve"; to_node := "improve";
      condition := Some review_condition |}].

(** What the evaluation of [A and B] with [B] the comparison
    [state['_meta']['iterations'] < 3] guarantees: a truthy result means
    that [B] was evaluated and came out true. *)
Definition review_condition_sound
    (py_eval : string -> pydict -> eval_outcome) : Prop :=
  forall state v,
    py_eval review_condition state = Evaluated v ->
    py_truthy v = true ->
    exists i, meta_get state "iterations" = Ok i /\
              py_lt i (VInt 3) = Some true.

(** [eval] of [review_condition] on the values of the model; any other
    string is rejected as a syntax error. *)
Definition eval_review (c : string) (state : pydict) : eval_outcome :=
  if String.eqb c review_condition then
    match py_lt (default (VInt 100) (dict_get state "quality_score"))
            (VInt 70) with
    | None => EvalRaised TypeError
    | Some false => Evaluated (VBool false)
    | Some true =>
        match meta_get state "iterations" with
        | Raise e => EvalRaised e
        | Ok i =>
            match py_lt i (VInt 3) with
            | Some b => Evaluated (VBool b)
            | None => EvalRaised TypeError
            end
        end
    end
  else EvalRaised SyntaxError.

(** [register_tool] of [main.py] *)
Definition register_tool (name : string) (func : Callable)
    (tool_registry : gmap string Callable) : gmap string Callable :=
  <[name := func]> tool_registry.

(** [setup_code_review_workflow] of [code_review_workflow.py], over the
    four tool functions it registers *)
Definition setup_code_review_workflow
    (extract_functions check_complexity detect_issues suggest_improvements
       : Callable)
    (tool_registry : gmap string Callable) : gmap string Callable :=
  register_tool "suggest_improvements" suggest_improvements
    (register_tool "detect_issues" detect_issues
       (register_tool "check_complexity" check_complexity
          (register_tool "extract_functions" extract_functions
             tool_registry))).

(** *** The HTTP handlers of [main.py]

    The two module-level stores are threaded through the handlers as a
    [storage]; [uuid.uuid4()] and the handlers' own clock readings are
    arguments; an exception leaving a handler is an [HTTPException] the
    handler raised itself or an exception of the engine. *)

Record GraphCreateRequest : Type := {
  request_nodes : list NodeConfig;
  request_edges : list EdgeConfig;
  request_name : option string
}.

Record GraphRunRequest : Type := {
  request_graph_id : string;
  request_initial_state : pydict
}.

Record graph_record : Type := {
  graph_nodes : list NodeConfig;
  graph_edges : list EdgeConfig;
  graph_name : option string;
  graph_created_at : string
}.

Record run_record : Type := {
  run_graph_id : string;
  run_state : pydict;
  run_created_at : string
}.

Record storage : Type := {
  workflow_storage : gmap string graph_record;
  run_storage : gmap string run_record
}.

Inductive handler_exn : Type :=
| HTTPException (status_code : nat) (detail : string)
| EngineException (e : py_exn).

Record run_response : Type := {
  response_run_id : string;
  response_final_state : pydict;
  response_execution_log : list value
}.

(** [create_graph]: the new storage and the [graph_id] of the response *)
Definition create_graph (uuid created_at : string)
    (request : GraphCreateRequest) (db : storage) : storage * string :=
  let graph_id := uuid in
  ({| workflow_storage :=
        <[graph_id := {| graph_nodes := request_nodes request;
                         graph_edges := request_edges request;
                         graph_name := request_name request;
                         graph_created_at := created_at |}]>
          (workflow_storage db);
      run_storage := run_storage db |},
   graph_id).

Section Handlers.
Variable now : nat -> string.
Variable py_eval : string -> pydict -> eval_outcome.
Variable tool_registry : gmap string Callable.

(** [run_graph]: the storage after the call and its response or the
    exception it raises; [None] when the engine runs out of fuel *)
Definition run_graph (fuel : nat) (uuid created_at : string)
    (request : GraphRunRequest) (db : storage)
  : option (storage * (handler_exn + run_response)) :=
  match workflow_storage db !! request_graph_id request with
  | None => Some (db, inl (HTTPException 404 "Graph not found"))
  | Some graph_data =>
      let run_id := uuid in
      let engine :=
        WorkflowEngine_init (request_graph_id request)
          (graph_nodes graph_data) (graph_edges graph_data) in
      match execute now py_eval tool_registry fuel engine
              (request_initial_state request) with
      | None => None
      | Some (Raise e) => Some (db, inl (EngineException e))
      | Some (Ok out) =>
          Some ({| workflow_storage := workflow_storage db;
                   run_storage :=
                     <[run_id := {| run_graph_id := request_graph_id request;
                                    run_state := final_state out;
                                    run_created_at := created_at |}]>
                       (run_storage db) |},
                inr {| response_run_id := run_id;
                       response_final_state := final_state out;
                       response_execution_log := run_log out |})
      end
  end.
End Handlers.

(** [get_run_state] *)
Definition get_run_state (run_id : string) (db : storage)
  : handler_exn + run_record :=
  match run_storage db !! run_id with
  | None => inl (HTTPException 404 "Run not found")
  | Some record => inr record
  end.

(** [health_check]: the [graphs] and [runs] counts of the response *)
Definition health_check (db : storage) : nat * nat :=
  (size (workflow_storage db), size (run_storage db)).

(** The stores of a freshly started server *)
Definition empty_storage : storage :=
  {| workflow_storage := ∅; run_storage := ∅ |}.

(** A create request for the graph of [score_engine] *)
Definition score_request : GraphCreateRequest :=
  {| request_nodes := [node "improve" "add_30"];
     request_edges := [edge "improve" "improve" (Some "state['score'] < 70")];
     request_name := Some "workflow" |}.

(** *** [detect_issues] of [code_review_workflow.py]

    The function is modelled as it is called on a state, [detect_issues(state)];
    an exception it raises is a [Raise].  The characters of a text are the
    characters of the Rocq string, so [len] counts them one by one, which
    is what Python does on ASCII text. *)

(** [sub in s] on strings *)
Fixpoint str_contains (sub s : string) : bool :=
  String.prefix sub s ||
  match s with
  | EmptyString => false
  | String _ s' => str_contains sub s'
  end.

(** [s.count(sub)] for a non-empty [sub]: the occurrences met from left
    to right, the characters of a counted occurrence being skipped *)
Fixpoint str_count_from (sub s : string) (skip : nat) : nat :=
  match s with
  | EmptyString => O
  | String _ s' =>
      match skip with
      | S k => str_count_from sub s' k
      | O =>
          if String.prefix sub s
          then S (str_count_from sub s' (String.length sub - 1))
          else str_count_from sub s' O
      end
  end.

Definition str_count (sub s : string) : nat := str_count_from sub s O.

(** The one-character strings a [for] loop over a [str] yields *)
Fixpoint str_chars (s : string) : list value :=
  match s with
  | EmptyString => []
  | String c s' => VStr (String c EmptyString) :: str_chars s'
  end.

Definition AttributeError : py_exn := OtherException "AttributeError".

(** [len(v)] *)
Definition py_len (v : value) : result Z :=
  match v with
  | VStr s => Ok (Z.of_nat (String.length s))
  | VList l => Ok (Z.of_nat (length l))
  | VDict d => Ok (Z.of_nat (length d))
  | _ => Raise TypeError
  end.

(** [v.count(x)] for a non-empty string [x] *)
Definition py_count (v : value) (x : string) : result Z :=
  match v with
  | VStr s => Ok (Z.of_nat (str_count x s))
  | VList l =>
      Ok (Z.of_nat (length (List.filter (fun e => py_eq e (VStr x)) l)))
  | _ => Raise AttributeError
  end.

(** [x in v] for a string [x] *)
Definition py_contains (x : string) (v : value) : result bool :=
  match v with
  | VStr s => Ok (str_contains x s)
  | VList l => Ok (existsb (fun e => py_eq e (VStr x)) l)
  | VDict d => Ok (match dict_get d x with Some _ => true | None => false end)
  | _ => Raise TypeError
  end.

(** The values a [for] loop over [v] yields *)
Definition py_iter (v : value) : result (list value) :=
  match v with
  | VList l => Ok l
  | VStr s => Ok (str_chars s)
  | VDict d => Ok (map (fun kv => VStr (fst kv)) d)
  | _ => Raise TypeError
  end.

(** [v.get(k, dflt)] *)
Definition py_get (v : value) (k : string) (dflt : value) : result value :=
  match v with
  | VDict d => Ok (default dflt (dict_get d k))
  | _ => Raise AttributeError
  end.

(** [v > n] for an int [n] *)
Definition py_gt_int (v : value) (n : Z) : result bool :=
  match py_lt (VInt n) v with
  | Some b => Ok b
  | None => Raise TypeError
  end.

Definition length_issue : value :=
  VDict [("type", VStr "length"); ("message", VStr "Code is very long");
         ("severity", VStr "medium")].

Definition globals_issue : value :=
  VDict [("type", VStr "globals");
         ("message", VStr "Too many global variables");
         ("severity", VStr "high")].

Definition exception_issue : value :=
  VDict [("type", VStr "exception");
         ("message", VStr "Bare except clause found");
         ("severity", VStr "medium")].

Section Tools.
(** [repr] of lists and dicts, which the model does not spell out *)
Variable py_repr : value -> string.

(** [str(v)], as an f-string formats a value *)
Definition py_str (v : value) : string :=
  match v with
  | VStr s => s
  | VNone => "None"
  | VBool true => "True"
  | VBool false => "False"
  | VInt z => pretty z
  | _ => py_repr v
  end.

Definition parameters_issue (func_name : value) : value :=
  VDict [("type", VStr "parameters");
         ("message",
          VStr ("Function " +:+ py_str func_name
                +:+ " has too many parameters"));
         ("severity", VStr "medium")].

(** The body of [for func in functions]: the issue it appends, if any *)
Definition check_function (func : value) : result (option value) :=
  args_count <- py_get func "args_count" (VInt 0) ;;
  too_many <- py_gt_int args_count 5 ;;
  if too_many : bool then
    func_name <- py_getitem func "name" ;;
    Ok (Some (parameters_issue func_name))
  else Ok None.

(** The loop [for func in functions] *)
Fixpoint check_functions (functions issues : list value)
  : result (list value) :=
  match functions with
  | [] => Ok issues
  | func :: rest =>
      found <- check_function func ;;
      check_functions rest
        (match found with
         | Some issue => issues ++ [issue]
         | None => issues
         end)
  end.

(** [detect_issues(state)] *)
Definition detect_issues (state : pydict) : result pydict :=
  let code := default (VStr "") (dict_get state "code") in
  let issues := [] in
  n <- py_len code ;;
  let issues := if 5000 <? n then issues ++ [length_issue] else issues in
  globals <- py_count code "global " ;;
  let issues := if 2 <? globals then issues ++ [globals_issue] else issues in
  bare <- py_contains "except:" code ;;
  bare <- (if bare : bool then Ok true else py_contains "except :" code) ;;
  let issues :=
    if bare : bool then issues ++ [exception_issue] else issues in
  let functions := default (VList []) (dict_get state "functions") in
  functions <- py_iter functions ;;
  issues <- check_functions functions issues ;;
  Ok [("issues", VList issues);
      ("issue_count", VInt (Z.of_nat (length issues)))].
End Tools.

(** What [extract_functions] records of a function *)
Record FunctionInfo : Type := {
  info_name : string;
  info_line_start : Z;
  info_args_count : Z;
  info_body_length : Z
}.

(** The dict [extract_functions] appends for it *)
Definition function_record (f : FunctionInfo) : value :=
  VDict [("name", VStr (info_name f));
         ("line_start", VInt (info_line_start f));
         ("args_count", VInt (info_args_count f));
         ("body_length", VInt (info_body_length f))].

(** The issues of the functions with more than five parameters *)
Definition functions_issues (py_repr : value -> string)
    (functions : list FunctionInfo) : list value :=
  map (fun f => parameters_issue py_repr (VStr (info_name f)))
    (List.filter (fun f => 5 <? info_args_count f) functions).

(** The issues of a text, in the order the three tests are made *)
Definition text_issues (code : string) : list value :=
  (if 5000 <? Z.of_nat (String.length code) then [length_issue] else [])
  ++ (if 2 <? Z.of_nat (str_count "global " code) then [globals_issue]
      else [])
  ++ (if str_contains "except:" code || str_contains "except :" code
      then [exception_issue] else []).

(** An issue as [detect_issues] writes them *)
Definition is_issue (v : value) : bool :=
  match v with
  | VDict [("type", VStr t); ("message", VStr _); ("severity", VStr sev)] =>
      (String.eqb t "length" || String.eqb t "globals"
       || String.eqb t "exception" || String.eqb t "parameters")
      && (String.eqb sev "medium" || String.eqb sev "high")
  | _ => false
  end.

(** A [repr] for the examples, none of which formats a list or a dict *)
Definition repr_unused (v : value) : string := "".

Definition sample_code : string := "try: pass; except: pass".

Definition sample_functions : list FunctionInfo :=
  [{| info_name := "f"; info_line_start := 1; info_args_count := 6;
      info_body_length := 2 |};
   {| info_name := "g"; info_line_start := 4; info_args_count := 2;
      info_body_length := 1 |}].

(** A state as [extract_functions] leaves it *)
Definition sample_state : pydict :=
  [("code", VStr sample_code); ("quality_threshold", VInt 70);
   ("functions", VList (map function_record sample_functions));
   ("function_count", VInt 2)].

(** * The engine on a live state

    [main.py] hands the state dict itself to [eval] (line 54) and to the
    tool (line 89): a condition or a tool can change it in place, the
    reserved [_meta] entry included.  In this module both collaborators
    return the state they leave behind, and next-node selection threads
    the state through the conditions it evaluates.  A tool call has three
    outcomes: a returned mapping, an [Exception] (caught by the engine),
    or an exception that [except Exception] does not catch and that leaves
    [execute].  The statements on the iteration cap and on the integrity
    of [_meta] are made here, with what they ask of the collaborators as
    hypotheses.  Log entries are recorded as they are when appended. *)

Module Live.

(** What [tool_func(state, **params)] does: the state it leaves, and its
    returned mapping or caught exception ([Ok]) or an exception that is
    not an [Exception] ([Raise]) *)
Definition Callable : Type :=
  pydict -> option pydict -> pydict * result tool_outcome.

(** What [eval(condition, {"state": state})] does: the state it leaves,
    and its value or exception *)
Definition Eval : Type := string -> pydict -> pydict * eval_outcome.

Section Engine.
Variable now : nat -> string.
Variable py_eval : Eval.
Variable tool_registry : gmap string Callable.

(** [_evaluate_condition]: the bare [except] catches every exception, and
    what the expression did to the state before raising stays done *)
Definition _evaluate_condition (condition : option string) (state : pydict)
  : pydict * value :=
  match condition with
  | None => (state, VBool true)
  | Some c =>
      if String.eqb c "" then (state, VBool true)
      else match py_eval c state with
           | (state, Evaluated v) => (state, v)
           | (state, EvalRaised _) => (state, VBool false)
           end
  end.

(** The [for next_node, condition in self.edges[current_node]] loop *)
Fixpoint first_active (out : list (string * option string)) (state : pydict)
  : pydict * option string :=
  match out with
  | [] => (state, None)
  | (next_node, condition) :: rest =>
      let (state, v) := _evaluate_condition condition state in
      if py_truthy v then (state, Some next_node)
      else first_active rest state
  end.

(** [_get_next_node] *)
Definition _get_next_node (self : WorkflowEngine) (current_node : string)
    (state : pydict) : pydict * option string :=
  match edges self !! current_node with
  | None => (state, None)
  | Some out => first_active out state
  end.

(** The [if node_config.tool in tool_registry] statement *)
Definition invoke (node_config : NodeConfig) (state log_entry : pydict)
  : result (pydict * pydict) :=
  match tool_registry !! tool node_config with
  | Some tool_func =>
      match tool_func state (params node_config) with
      | (state, Ok (Returned output)) =>
          let state := dict_update state output in
          let log_entry := dict_set log_entry "status" (VStr "success") in
          let log_entry := dict_set log_entry "output" (VDict output) in
          Ok (state, log_entry)
      | (state, Ok (Raised msg)) =>
          let log_entry := dict_set log_entry "status" (VStr "error") in
          let log_entry := dict_set log_entry "error" (VStr msg) in
          let state := dict_set state "_error" (VStr msg) in
          Ok (state, log_entry)
      | (_, Raise e) => Raise e
      end
  | None =>
      Ok (state, dict_set log_entry "status" (VStr "tool_not_found"))
  end.

(** The body of the [while] loop *)
Definition visit (self : WorkflowEngine) (state : pydict)
    (current_node : string) (log : list value) (tick : nat)
  : result (pydict * list value * option string) :=
  node_config <- dict_getitem (nodes self) current_node ;;
  iteration <- meta_get state "iterations" ;;
  let log_entry :=
    [("node", VStr current_node);
     ("timestamp", VStr (now tick));
     ("iteration", iteration)] in
  invoked <- invoke node_config state log_entry ;;
  let '(state, log_entry) := invoked in
  let log := log ++ [VDict log_entry] in
  state <- bump_iterations state ;;
  let (state, next) := _get_next_node self current_node state in
  Ok (state, log, next).

(** The [while] loop of [execute] *)
Fixpoint run_loop (fuel : nat) (self : WorkflowEngine) (state : pydict)
    (current_node : option string) (log : list value) (tick : nat)
  : option (result (pydict * list value * nat * exit_reason)) :=
  match loop_guard current_node state with
  | Raise e => Some (Raise e)
  | Ok (Leave why) => Some (Ok (state, log, tick, why))
  | Ok (Enter n) =>
      match fuel with
      | O => None
      | S fuel' =>
          match visit self state n log tick with
          | Raise e => Some (Raise e)
          | Ok (state', log', next) =>
              run_loop fuel' self state' next log' (S tick)
          end
      end
  end.

(** [WorkflowEngine.execute] *)
Definition execute (fuel : nat) (self : WorkflowEngine)
    (initial_state : pydict) : option (result run) :=
  match run_loop fuel self (start_state now initial_state) (entry_node self)
          (execution_log self) 1 with
  | None => None
  | Some (Raise e) => Some (Raise e)
  | Some (Ok (state, log, tick, why)) =>
      Some (state <- finish now state log tick ;;
            Ok {| final_state := state; run_log := log;
                  exit_status := why |})
  end.

(** [run_graph] over this engine *)
Definition run_graph (fuel : nat) (uuid created_at : string)
    (request : GraphRunRequest) (db : storage)
  : option (storage * (handler_exn + run_response)) :=
  match workflow_storage db !! request_graph_id request with
  | None => Some (db, inl (HTTPException 404 "Graph not found"))
  | Some graph_data =>
      let run_id := uuid in
      let engine :=
        WorkflowEngine_init (request_graph_id request)
          (graph_nodes graph_data) (graph_edges graph_data) in
      match execute fuel engine (request_initial_state request) with
      | None => None
      | Some (Raise e) => Some (db, inl (EngineException e))
      | Some (Ok out) =>
          Some ({| workflow_storage := workflow_storage db;
                   run_storage :=
                     <[run_id := {| run_graph_id := request_graph_id request;
                                    run_state := final_state out;
                                    run_created_at := created_at |}]>
                       (run_storage db) |},
                inr {| response_run_id := run_id;
                       response_final_state := final_state out;
                       response_execution_log := run_log out |})
      end
  end.
End Engine.

(** No registered tool changes the [_meta] entry of the state it is
    handed, and none returns a mapping with a [_meta] key. *)
Definition tools_respect_meta (tool_registry : gmap string Callable) : Prop :=
  forall tool_name f state params,
    tool_registry !! tool_name = Some f ->
    dict_get (fst (f state params)) "_meta" = dict_get state "_meta" /\
    forall output,
      snd (f state params) = Ok (Returned output) ->
      dict_get output "_meta" = None.

(** No condition changes the [_meta] entry of the state while it is
    evaluated. *)
Definition conditions_respect_meta (py_eval : Eval) : Prop :=
  forall c state,
    dict_get (fst (py_eval c state)) "_meta" = dict_get state "_meta".

(** A tool and an evaluator that only read the state, as collaborators of
    this engine *)
Definition reading_tool (f : pydict -> option pydict -> tool_outcome)
  : Callable :=
  fun state params => (state, Ok (f state params)).

Definition reading_eval (e : string -> pydict -> eval_outcome) : Eval :=
  fun c state => (state, e c state).

(** *** Collaborators of the examples *)

(** A tool that adds 30 to the score and counts its calls in the state it
    is handed *)
Definition add_30_counting : Callable := fun state params =>
  let calls := default (VInt 0) (dict_get state "calls") in
  let state' :=
    match py_add_int calls 1 with
    | Ok c => dict_set state "calls" c
    | Raise _ => state
    end in
  (state',
   Ok (match dict_get state "score" with
       | None => Raised "'score'"
       | Some v =>
           match py_add_int v 30 with
           | Ok v' => Returned [("score", v')]
           | Raise _ => Raised "unsupported operand type(s) for +"
           end
       end)).

Definition counting_registry : gmap string Callable :=
  <["add_30" := add_30_counting]> ∅.

(** [eval] of a comparison of the score that first notes in the state
    that it was made; any other string is rejected as a syntax error. *)
Definition eval_marking (c : string) (state : pydict)
  : pydict * eval_outcome :=
  if String.eqb c "state.update(checked=True) or state['score'] < 70" then
    (dict_set state "checked" (VBool true),
     match dict_get state "score" with
     | None => EvalRaised (KeyError "score")
     | Some v =>
         match py_lt v (VInt 70) with
         | Some b => Evaluated (VBool b)
         | None => EvalRaised TypeError
         end
     end)
  else (state, EvalRaised SyntaxError).

(** [eval] of an expression that raises the cap in place and is true *)
Definition eval_cap_raising (c : string) (state : pydict)
  : pydict * eval_outcome :=
  if String.eqb c "state['_meta'].update(max_iterations=60) or True" then
    match dict_get state "_meta" with
    | None => (state, EvalRaised (KeyError "_meta"))
    | Some (VDict m) =>
        (dict_set state "_meta"
           (VDict (dict_set m "max_iterations" (VInt 60))),
         Evaluated (VBool true))
    | Some _ => (state, EvalRaised AttributeError)
    end
  else (state, EvalRaised SyntaxError).

(** The score graph with the condition that marks the state *)
Definition marking_engine : WorkflowEngine :=
  WorkflowEngine_init "marking" [node "improve" "add_30"]
    [edge "improve" "improve"
       (Some "state.update(checked=True) or state['score'] < 70")].

(** The score node looping unconditionally *)
Definition looping_engine : WorkflowEngine :=
  WorkflowEngine_init "looping" [node "improve" "add_30"]
    [edge "improve" "improve" None].

(** One unregistered node looping on the condition that raises the cap *)
Definition cap_raising_engine : WorkflowEngine :=
  WorkflowEngine_init "cap" [node "a" "nowhere"]
    [edge "a" "a"
       (Some "state['_meta'].update(max_iterations=60) or True")].

(** A create request for the graph of [marking_engine] *)
Definition marking_request : GraphCreateRequest :=
  {| request_nodes := [node "improve" "add_30"];
     request_edges :=
       [edge "improve" "improve"
          (Some "state.update(checked=True) or state['score'] < 70")];
     request_name := Some "workflow" |}.
End Live.

(** ** Facts about dictionaries *)

Section DictFacts.
Context {A : Type}.
Implicit Types (d r : list (string * A)) (k : string) (v : A).

Lemma dict_get_set_eq d k v : dict_get (dict_set d k v) k = Some v.
Proof.
  induction d as [|[k' v'] d IH]; simpl.
  - now rewrite String.eqb_refl.
  - destruct (String.eqb k' k) eqn:E; simpl; rewrite E; auto.
Qed.

Lemma dict_get_set_ne d k k' v :
  k <> k' -> dict_get (dict_set d k v) k' = dict_get d k'.
Proof.
  intros Hne. induction d as [|[k0 v0] d IH]; simpl.
  - apply String.eqb_neq in Hne. now rewrite Hne.
  - destruct (String.eqb k0 k) eqn:E; simpl.
    + apply String.eqb_eq in E. subst k0.
      apply String.eqb_neq in Hne. now rewrite Hne.
    + now rewrite IH.
Qed.

Lemma dict_get_set d k k' v :
  dict_get (dict_set d k v) k' =
  if String.eqb k k' then Some v else dict_get d k'.
Proof.
  destruct (String.eqb k k') eqn:E.
  - apply String.eqb_eq in E. subst. apply dict_get_set_eq.
  - apply String.eqb_neq in E. now apply dict_get_set_ne.
Qed.

Lemma dict_set_set d k v v' :
  dict_set (dict_set d k v) k v' = dict_set d k v'.
Proof.
  induction d as [|[k0 v0] d IH]; simpl.
  - now rewrite String.eqb_refl.
  - destruct (String.eqb k0 k) eqn:E; simpl; rewrite E; congruence.
Qed.

Lemma dict_get_update_absent d r k :
  dict_get r k = None -> dict_get (dict_update d r) k = dict_get d k.
Proof.
  unfold dict_update. revert d.
  induction r as [|[k0 v0] r IH]; intros d Hr; simpl in *; auto.
  destruct (String.eqb k0 k) eqn:E; [discriminate|].
  rewrite IH by assumption.
  apply dict_get_set_ne. now apply String.eqb_neq.
Qed.

Lemma dict_keys_set_present d k v :
  dict_get d k <> None -> dict_keys (dict_set d k v) = dict_keys d.
Proof.
  induction d as [|[k0 v0] d IH]; simpl; [congruence|].
  destruct (String.eqb k0 k) eqn:E; simpl; intros H; auto.
  now rewrite IH.
Qed.

Lemma dict_keys_set_absent d k v :
  dict_get d k = None -> dict_keys (dict_set d k v) = dict_keys d ++ [k].
Proof.
  induction d as [|[k0 v0] d IH]; simpl; auto.
  destruct (String.eqb k0 k) eqn:E; simpl; intros H; [discriminate|].
  now rewrite IH.
Qed.

Lemma dict_get_None_keys d k : dict_get d k = None -> ~ In k (dict_keys d).
Proof.
  induction d as [|[k0 v0] d IH]; simpl; auto.
  destruct (String.eqb k0 k) eqn:E; [discriminate|].
  apply String.eqb_neq in E. intros H [H1|H1]; [congruence|].
  now apply IH.
Qed.
End DictFacts.

(** ** Graph construction *)


Lemma outgoing_cons e edges n :
  outgoing (e :: edges) n =
  if String.eqb (from_node e) n
  then (to_node e, condition e) :: outgoing edges n
  else outgoing edges n.
Proof. unfold outgoing. simpl. now destruct (String.eqb (from_node e) n). Qed.

Lemma edge_map_add_lookup m e n :
  edge_map_add m e !! n =
  if String.eqb (from_node e) n
  then Some (default [] (m !! n) ++ [(to_node e, condition e)])
  else m !! n.
Proof.
  unfold edge_map_add.
  destruct (String.eqb (from_node e) n) eqn:E.
  - apply String.eqb_eq in E. subst n.
    rewrite lookup_insert_eq. do 2 f_equal.
    destruct (m !! from_node e) eqn:L; simpl.
    + now rewrite L.
    + now rewrite lookup_insert_eq.
  - apply String.eqb_neq in E.
    rewrite lookup_insert_ne by assumption.
    destruct (m !! from_node e); [reflexivity|].
    now rewrite lookup_insert_ne.
Qed.

Lemma fold_edge_map_lookup edges : forall m n,
  fold_left edge_map_add edges m !! n =
  match outgoing edges n with
  | [] => m !! n
  | out => Some (default [] (m !! n) ++ out)
  end.
Proof.
  induction edges as [|e edges IH]; intros m n; [reflexivity|].
  simpl fold_left. rewrite IH, outgoing_cons, edge_map_add_lookup.
  destruct (String.eqb (from_node e) n); [|reflexivity].
  destruct (outgoing edges n) as [|x out]; [reflexivity|].
  simpl. now rewrite <- app_assoc.
Qed.

Lemma build_edge_map_lookup edges n :
  _build_edge_map edges !! n =
  match outgoing edges n with
  | [] => None
  | out => Some out
  end.
Proof.
  unfold _build_edge_map. rewrite fold_edge_map_lookup, lookup_empty.
  reflexivity.
Qed.

Lemma node_map_snoc nodes node :
  node_map (nodes ++ [node]) = dict_set (node_map nodes) (name node) node.
Proof. unfold node_map. now rewrite fold_left_app. Qed.

Lemma node_map_get nodes k :
  dict_get (node_map nodes) k =
  List.find (fun node => String.eqb (name node) k) (rev nodes).
Proof.
  induction nodes as [|node nodes IH] using rev_ind; [reflexivity|].
  rewrite node_map_snoc, rev_app_distr, dict_get_set. simpl.
  now rewrite IH.
Qed.

Lemma node_map_keys_NoDup nodes : NoDup (dict_keys (node_map nodes)).
Proof.
  induction nodes as [|node nodes IH] using rev_ind; [constructor|].
  rewrite node_map_snoc.
  destruct (dict_get (node_map nodes) (name node)) eqn:G.
  - rewrite dict_keys_set_present by congruence. exact IH.
  - rewrite dict_keys_set_absent by assumption.
    apply NoDup_app. split; [exact IH|]. split.
    + intros x Hx Hin. apply list_elem_of_In in Hx, Hin.
      destruct Hin as [<-|[]]. now apply dict_get_None_keys in G.
    + apply NoDup_singleton.
Qed.

Lemma node_map_head node nodes :
  head (dict_keys (node_map (node :: nodes))) = Some (name node).
Proof.
  induction nodes as [|n' nodes IH] using rev_ind; [reflexivity|].
  rewrite app_comm_cons, node_map_snoc.
  destruct (dict_get (node_map (node :: nodes)) (name n')) eqn:G.
  - rewrite dict_keys_set_present by congruence. exact IH.
  - rewrite dict_keys_set_absent by assumption.
    destruct (dict_keys (node_map (node :: nodes))); [discriminate IH|].
    exact IH.
Qed.

(** ** The iteration counter *)

Lemma meta_get_dict state m k :
  dict_get state "_meta" = Some (VDict m) ->
  meta_get state k = dict_getitem m k.
Proof. intros H. unfold meta_get, dict_getitem at 1. now rewrite H. Qed.

Lemma meta_set_dict state m k x :
  dict_get state "_meta" = Some (VDict m) ->
  meta_set state k x = Ok (dict_set state "_meta" (VDict (dict_set m k x))).
Proof. intros H. unfold meta_set, dict_getitem. now rewrite H. Qed.

Lemma bump_iterations_int state m i :
  dict_get state "_meta" = Some (VDict m) ->
  dict_get m "iterations" = Some (VInt i) ->
  bump_iterations state =
  Ok (dict_set state "_meta" (VDict (dict_set m "iterations" (VInt (i + 1))))).
Proof.
  intros Hm Hi. unfold bump_iterations.
  rewrite (meta_get_dict _ _ _ Hm). unfold dict_getitem. rewrite Hi. simpl.
  now apply meta_set_dict.
Qed.

(** Whenever the increment succeeds it leaves an int in the counter. *)
Lemma bump_iterations_leaves_int state state' :
  bump_iterations state = Ok state' ->
  exists m i, dict_get state' "_meta" = Some (VDict m) /\
              dict_get m "iterations" = Some (VInt i).
Proof.
  unfold bump_iterations, meta_get, meta_set, dict_getitem.
  destruct (dict_get state "_meta") as [[| | | | |m]|]; simpl; try discriminate.
  unfold dict_getitem.
  destruct (dict_get m "iterations") as [[|b|z| | |]|]; simpl;
    try discriminate; intros [= <-]; eexists; eexists;
    (split; [apply dict_get_set_eq|apply dict_get_set_eq]).
Qed.

Section EngineFacts.
Variable now : nat -> string.
Variable py_eval : string -> pydict -> eval_outcome.
Variable tool_registry : gmap string Callable.

Lemma visit_leaves_int self state n log tick state' log' next :
  visit now py_eval tool_registry self state n log tick
  = Ok (state', log', next) ->
  exists m i, dict_get state' "_meta" = Some (VDict m) /\
              dict_get m "iterations" = Some (VInt i).
Proof.
  unfold visit.
  destruct (dict_getitem (nodes self) n) as [cfg|]; simpl; [|discriminate].
  destruct (meta_get state "iterations") as [it|]; simpl; [|discriminate].
  destruct (invoke tool_registry cfg state _) as [st1 entry].
  destruct (bump_iterations st1) as [st2|] eqn:B; simpl; [|discriminate].
  intros [= <- _ _]. now apply bump_iterations_leaves_int in B.
Qed.

Lemma loop_head_counter self initial_state state current_node log tick :
  loop_head now py_eval tool_registry self initial_state state current_node
    log tick ->
  exists m i, dict_get state "_meta" = Some (VDict m) /\
              dict_get m "iterations" = Some (VInt i).
Proof.
  destruct 1 as [|? ? ? ? ? ? ? ? _ _ V].
  - eexists; exists 0. unfold start_state, initial_meta.
    rewrite dict_get_set_eq. split; reflexivity.
  - now apply visit_leaves_int in V.
Qed.

(** A visit whose tool step leaves the [_meta] entry alone *)
Lemma visit_counter self state n log tick cfg m i :
  dict_get (nodes self) n = Some cfg ->
  dict_get state "_meta" = Some (VDict m) ->
  dict_get m "iterations" = Some (VInt i) ->
  let entry := [("node", VStr n); ("timestamp", VStr (now tick));
                ("iteration", VInt i)] in
  dict_get (fst (invoke tool_registry cfg state entry)) "_meta"
  = Some (VDict m) ->
  let state' :=
    dict_set (fst (invoke tool_registry cfg state entry)) "_meta"
      (VDict (dict_set m "iterations" (VInt (i + 1)))) in
  visit now py_eval tool_registry self state n log tick =
  Ok (state', log ++ [VDict (snd (invoke tool_registry cfg state entry))],
      _get_next_node py_eval self n state').
Proof.
  intros Hn Hm Hi entry Hinv state'. unfold visit, dict_getitem at 1.
  rewrite Hn. simpl. rewrite (meta_get_dict _ _ _ Hm).
  unfold dict_getitem. rewrite Hi. simpl. fold entry.
  destruct (invoke tool_registry cfg state entry) as [st1 e1] eqn:I.
  simpl in *.
  rewrite (bump_iterations_int _ _ _ Hinv Hi). reflexivity.
Qed.
End EngineFacts.

(** ** The loop *)

Section LoopFacts.
Variable now : nat -> string.
Variable py_eval : string -> pydict -> eval_outcome.
Variable tool_registry : gmap string Callable.

Lemma run_loop_leave fuel self state current_node log tick why :
  loop_guard current_node state = Ok (Leave why) ->
  run_loop now py_eval tool_registry fuel self state current_node log tick =
  Some (Ok (state, log, tick, why)).
Proof. intros G. destruct fuel; simpl; now rewrite G. Qed.

Lemma run_loop_raise fuel self state current_node log tick e :
  loop_guard current_node state = Raise e ->
  run_loop now py_eval tool_registry fuel self state current_node log tick =
  Some (Raise e).
Proof. intros G. destruct fuel; simpl; now rewrite G. Qed.

Lemma run_loop_enter fuel self state current_node log tick n :
  loop_guard current_node state = Ok (Enter n) ->
  run_loop now py_eval tool_registry (S fuel) self state current_node log tick =
  match visit now py_eval tool_registry self state n log tick with
  | Raise e => Some (Raise e)
  | Ok (state', log', next) =>
      run_loop now py_eval tool_registry fuel self state' next log' (S tick)
  end.
Proof. intros G. simpl. now rewrite G. Qed.

Lemma loop_guard_counts state n m i cap :
  dict_get state "_meta" = Some (VDict m) ->
  dict_get m "iterations" = Some (VInt i) ->
  dict_get m "max_iterations" = Some (VInt cap) ->
  loop_guard (Some n) state =
  if String.eqb n "" then Ok (Leave Completed)
  else if i <? cap then Ok (Enter n)
  else Ok (Leave MaxIterationsExceeded).
Proof.
  intros Hm Hi Hc. unfold loop_guard.
  destruct (String.eqb n ""); [reflexivity|].
  rewrite !(meta_get_dict _ _ _ Hm). unfold dict_getitem.
  rewrite Hi, Hc. simpl. now destruct (i <? cap).
Qed.

Lemma loop_guard_enter current_node state n :
  loop_guard current_node state = Ok (Enter n) -> current_node = Some n.
Proof.
  destruct current_node as [n'|]; simpl; [|discriminate].
  destruct (String.eqb n' ""); [discriminate|].
  destruct (meta_get state "iterations"); simpl; [|discriminate].
  destruct (meta_get state "max_iterations"); simpl; [|discriminate].
  destruct (py_lt _ _) as [[|]|]; try discriminate. now intros [= ->].
Qed.

Lemma invoke_keeps_meta cfg state entry :
  keeps_meta tool_registry ->
  dict_get (fst (invoke tool_registry cfg state entry)) "_meta"
  = dict_get state "_meta".
Proof.
  intros K. unfold invoke.
  destruct (tool_registry !! tool cfg) as [f|] eqn:L; [|reflexivity].
  destruct (f state (params cfg)) as [output|msg] eqn:C; simpl.
  - apply dict_get_update_absent. exact (K _ _ _ _ _ L C).
  - now apply dict_get_set_ne.
Qed.

End LoopFacts.


(** The cap is reached: an unconditional self-loop is visited 50 times
    and the loop is then left on its second conjunct. *)
Example cap_is_reached :
  exists out,
    execute tick_clock eval_demo score_registry 50 loop_engine
      [("score", VInt 0)] = Some (Ok out) /\
    length (run_log out) = 50%nat /\
    exit_status out = MaxIterationsExceeded /\
    dict_get (final_state out) "score" = Some (VInt 1500).
Proof. eexists. split; [vm_compute; reflexivity|]. repeat split. Qed.

Lemma spin_loop now py_eval : forall fuel log tick,
  run_loop now py_eval demo_registry fuel spin_engine spin_state
    (Some "spin") log tick = None.
Proof.
  induction fuel as [|fuel IH]; intros log tick; [reflexivity|].
  rewrite (run_loop_enter _ _ _ _ _ _ _ _ _ "spin") by reflexivity.
  exact (IH _ _).
Qed.

Lemma spin_execute now py_eval fuel :
  execute now py_eval demo_registry fuel spin_engine [] = None.
Proof.
  assert (L : run_loop now py_eval demo_registry fuel spin_engine
                (start_state now []) (entry_node spin_engine)
                (execution_log spin_engine) 1 = None).
  { destruct fuel as [|fuel]; [reflexivity|].
    rewrite (run_loop_enter _ _ _ _ _ _ _ _ _ "spin") by reflexivity.
    exact (spin_loop now py_eval _ _ _). }
  unfold execute. now rewrite L.
Qed.

(** C1, counterexample: a one-node graph with an unconditional self-loop
    whose tool returns a mapping with a [_meta] key.  The merge replaces
    the counter at every visit, the test of the loop never fails, and no
    amount of fuel lets [execute] end. *)
Lemma spin_never_ends :
  ~ exists fuel r,
      execute tick_clock eval_demo demo_registry fuel spin_engine [] = Some r.
Proof. intros [fuel [r H]]. rewrite spin_execute in H. discriminate. Qed.

(** ** Next-node selection *)

Section SelectionFacts.
Variable now : nat -> string.
Variable py_eval : string -> pydict -> eval_outcome.
Variable tool_registry : gmap string Callable.

Lemma get_next_node_init gid definitions edges n state :
  _get_next_node py_eval (WorkflowEngine_init gid definitions edges) n state =
  first_active py_eval (outgoing edges n) state.
Proof.
  unfold _get_next_node. simpl. rewrite build_edge_map_lookup.
  now destruct (outgoing edges n).
Qed.

Lemma first_active_skip pre target c post state :
  Forall (fun e => py_truthy (_evaluate_condition py_eval (snd e) state)
                   = false) pre ->
  py_truthy (_evaluate_condition py_eval c state) = true ->
  first_active py_eval (pre ++ (target, c) :: post) state = Some target.
Proof.
  induction 1 as [|[t0 c0] pre H0 _ IH]; intros Hc; simpl in *.
  - now rewrite Hc.
  - rewrite H0. now apply IH.
Qed.

Lemma first_active_none out state :
  Forall (fun e => py_truthy (_evaluate_condition py_eval (snd e) state)
                   = false) out ->
  first_active py_eval out state = None.
Proof.
  induction 1 as [|[t0 c0] out H0 _ IH]; simpl in *; [reflexivity|].
  now rewrite H0.
Qed.

(** C5: [_evaluate_condition] answers [True] for an absent condition (and
    for the empty string, which the code does not tell apart from an absent
    one), and for a condition it hands to [eval] every exception [eval]
    raises -- syntax error, missing key, type error or any other -- turns
    into the answer [False].  The function is total: nothing is raised to
    the caller. *)
Theorem evaluate_condition_fail_closed state :
  _evaluate_condition py_eval None state = VBool true /\
  _evaluate_condition py_eval (Some "") state = VBool true /\
  (forall c e, c <> "" -> py_eval c state = EvalRaised e ->
     _evaluate_condition py_eval (Some c) state = VBool false) /\
  (forall c v, c <> "" -> py_eval c state = Evaluated v ->
     _evaluate_condition py_eval (Some c) state = v).
Proof.
  repeat split; try reflexivity; intros c x Hc E; unfold _evaluate_condition;
    apply String.eqb_neq in Hc; now rewrite Hc, E.
Qed.

(** C6: on an engine built from a definition, [_get_next_node] scans the
    edges that leave the current node in their declaration order and
    answers the target of the first one whose condition is truthy on the
    state: the first declared edge wins when its condition holds, whatever
    the later ones say; an edge is chosen exactly when all edges declared
    before it are inactive; and when no edge is active (in particular when
    the node has no outgoing edge) the answer is [None], on which the loop
    stops at once with the run [Completed]. *)
Theorem next_node_first_active gid definitions edges n state :
  let self := WorkflowEngine_init gid definitions edges in
  let inactive := fun e : string * option string =>
    py_truthy (_evaluate_condition py_eval (snd e) state) = false in
  _get_next_node py_eval self n state
  = first_active py_eval (outgoing edges n) state /\
  (forall target c rest,
     outgoing edges n = (target, c) :: rest ->
     py_truthy (_evaluate_condition py_eval c state) = true ->
     _get_next_node py_eval self n state = Some target) /\
  (forall pre target c post,
     outgoing edges n = pre ++ (target, c) :: post ->
     Forall inactive pre ->
     py_truthy (_evaluate_condition py_eval c state) = true ->
     _get_next_node py_eval self n state = Some target) /\
  (Forall inactive (outgoing edges n) ->
     _get_next_node py_eval self n state = None /\
     forall fuel state' log tick,
       run_loop now py_eval tool_registry fuel self state'
         (_get_next_node py_eval self n state) log tick =
       Some (Ok (state', log, tick, Completed))).
Proof.
  intros self inactive. unfold self.
  rewrite get_next_node_init. repeat split.
  - intros target c rest -> Hc. simpl. now rewrite Hc.
  - intros pre target c post -> Hpre Hc. now apply first_active_skip.
  - now apply first_active_none.
  - intros fuel state' log tick. rewrite first_active_none by assumption.
    now apply run_loop_leave.
Qed.
End SelectionFacts.

(** Three edges of which the first two are active: the first declared
    target is taken. *)
Example fan_takes_first :
  _get_next_node eval_demo (WorkflowEngine_init "fan" [] fan_edges) "a" []
  = Some "first".
Proof. reflexivity. Qed.

(** An expression that fails to evaluate leaves its edge inactive. *)
Example missing_key_is_false :
  _evaluate_condition eval_demo (Some "state['score'] < 70") []
  = VBool false.
Proof. reflexivity. Qed.

(** ** Construction and the runs of particular graphs *)

(** C10: on a graph with no node, [execute] ends with any fuel, visits
    nothing and raises nothing.  The returned state is the initial state
    with its [_meta] entry set to the start time, an iteration count of 0,
    the cap, the end time and an empty execution log; the log is empty. *)
Theorem execute_empty_graph now py_eval tool_registry gid edges
    initial_state fuel :
  execute now py_eval tool_registry fuel (WorkflowEngine_init gid [] edges)
    initial_state =
  Some (Ok {| final_state :=
                dict_set initial_state "_meta"
                  (VDict [("start_time", VStr (now 0%nat));
                          ("iterations", VInt 0);
                          ("max_iterations", VInt 50);
                          ("end_time", VStr (now 1%nat));
                          ("execution_log", VList [])]);
              run_log := [];
              exit_status := Completed |}).
Proof.
  unfold execute. rewrite run_loop_leave with (why := Completed) by reflexivity.
  unfold finish, start_state, initial_meta.
  rewrite meta_set_dict with (m := [("start_time", VStr (now 0%nat));
                                    ("iterations", VInt 0);
                                    ("max_iterations", VInt 50)])
    by apply dict_get_set_eq.
  simpl bind. rewrite dict_set_set.
  erewrite meta_set_dict by apply dict_get_set_eq.
  simpl bind. now rewrite dict_set_set.
Qed.

(** C3 (as amended): building an engine never fails.  Each name is kept
    once; under a name shared by several node definitions the engine holds
    the last of them; and the entry node is the name of the first
    definition. *)
Theorem node_map_last_wins gid definitions edges k :
  let self := WorkflowEngine_init gid definitions edges in
  dict_get (nodes self) k =
    List.find (fun node => String.eqb (name node) k) (rev definitions) /\
  NoDup (dict_keys (nodes self)) /\
  entry_node self = head (map name definitions).
Proof.
  intros self. unfold self, entry_node. simpl. repeat split.
  - apply node_map_get.
  - apply node_map_keys_NoDup.
  - destruct definitions as [|node0 rest]; [reflexivity|]. apply node_map_head.
Qed.

(** ** Single visits *)

Section VisitFacts.
Variable now : nat -> string.
Variable py_eval : string -> pydict -> eval_outcome.
Variable tool_registry : gmap string Callable.

Lemma run_loop_visit fuel self state current_node n log tick state' log' next :
  loop_guard current_node state = Ok (Enter n) ->
  visit now py_eval tool_registry self state n log tick
  = Ok (state', log', next) ->
  run_loop now py_eval tool_registry (S fuel) self state current_node log tick =
  run_loop now py_eval tool_registry fuel self state' next log' (S tick).
Proof. intros G V. now rewrite (run_loop_enter _ _ _ _ _ _ _ _ _ _ G), V. Qed.

Lemma invoke_unregistered cfg state entry :
  tool_registry !! tool cfg = None ->
  invoke tool_registry cfg state entry =
  (state, dict_set entry "status" (VStr "tool_not_found")).
Proof.
  intros L. unfold invoke.
  destruct (tool_registry !! tool cfg) as [f|] eqn:E; [|reflexivity].
  congruence.
Qed.



(** C7: at every visit of a run whose node names a tool that is not
    registered, the engine appends a log entry with status
    [tool_not_found]; the state after the visit is the state before it
    with the iteration counter of [_meta] raised by one and nothing else
    touched; the next node is selected on that state, and the loop goes on
    from there. *)
Theorem unregistered_tool_visit self initial_state state current_node n log
    tick cfg :
  loop_head now py_eval tool_registry self initial_state state current_node
    log tick ->
  loop_guard current_node state = Ok (Enter n) ->
  dict_get (nodes self) n = Some cfg ->
  tool_registry !! tool cfg = None ->
  exists m i,
    dict_get state "_meta" = Some (VDict m) /\
    dict_get m "iterations" = Some (VInt i) /\
    let state' :=
      dict_set state "_meta" (VDict (dict_set m "iterations" (VInt (i + 1)))) in
    let log' :=
      log ++ [VDict [("node", VStr n); ("timestamp", VStr (now tick));
                     ("iteration", VInt i);
                     ("status", VStr "tool_not_found")]] in
    let next := _get_next_node py_eval self n state' in
    visit now py_eval tool_registry self state n log tick
    = Ok (state', log', next)
    /\ (forall k, k <> "_meta" -> dict_get state' k = dict_get state k)
    /\ dict_keys state' = dict_keys state
    /\ forall fuel,
         run_loop now py_eval tool_registry (S fuel) self state current_node
           log tick =
         run_loop now py_eval tool_registry fuel self state' next log' (S tick).
Proof.
  intros H G N L. destruct (loop_head_counter _ _ _ _ _ _ _ _ _ H)
    as [m [i [Hm Hi]]].
  exists m, i. split; [exact Hm|]. split; [exact Hi|].
  intros state' log' next.
  pose proof (visit_counter now py_eval tool_registry self state n log tick
                cfg m i N Hm Hi) as V.
  cbv zeta in V. rewrite (invoke_unregistered _ _ _ L) in V.
  specialize (V Hm).
  split; [exact V|]. split; [|split].
  - intros k Hk. unfold state'. now rewrite dict_get_set_ne.
  - unfold state'. apply dict_keys_set_present. congruence.
  - intros fuel. eapply run_loop_visit; [exact G|exact V].
Qed.


End VisitFacts.

(** C7, witness: the first visit of [unbound_engine], whose entry node
    names a tool that nobody registered. *)
Lemma unregistered_tool_visit_witness :
  demo_registry !! "nowhere" = None /\
  exists state' log',
    visit tick_clock eval_demo demo_registry unbound_engine
      (start_state tick_clock []) "a" [] 1 = Ok (state', log', Some "b") /\
    dict_keys state' = ["_meta"].
Proof.
  split; [reflexivity|].
  destruct (unregistered_tool_visit tick_clock eval_demo demo_registry
              unbound_engine [] (start_state tick_clock [])
              (entry_node unbound_engine) "a" (execution_log unbound_engine)
              1%nat (node "a" "nowhere")
              (head_start _ _ _ _ _) eq_refl eq_refl eq_refl)
    as [m [i [_ [_ [V [_ [K _]]]]]]].
  eexists. eexists. split; [exact V|exact K].
Defined.


(** C4, counterexample: a tool whose returned mapping has a [_meta] key.
    After the single visit the cap reads 1000, the counter continues from
    the returned 41, and the start time is gone. *)
Lemma tool_output_clobbers_meta :
  exists out,
    execute tick_clock eval_demo demo_registry 1 clobber_engine [] =
      Some (Ok out) /\
    meta_get (final_state out) "max_iterations" = Ok (VInt 1000) /\
    meta_get (final_state out) "iterations" = Ok (VInt 42) /\
    meta_get (final_state out) "start_time" = Raise (KeyError "start_time").
Proof. eexists. split; [vm_compute; reflexivity|]. repeat split. Qed.

(** C3, counterexample: two node definitions share the name [a]; the
    engine is built all the same, holds the second definition under that
    name, and a run on it visits the node. *)
Lemma twin_definition_builds_and_runs :
  ~ NoDup (map name twin_nodes) /\
  nodes twin_engine = [("a", node "a" "failing")] /\
  exists out,
    execute tick_clock eval_demo demo_registry 1 twin_engine [] =
      Some (Ok out) /\
    length (run_log out) = 1%nat /\
    exit_status out = Completed.
Proof.
  split; [|split; [reflexivity|]].
  - intros H. inversion H as [|x l Hin _]; subst. apply Hin. now left.
  - eexists. split; [vm_compute; reflexivity|]. split; reflexivity.
Qed.

(** Evaluate the visit at the head of the goal. *)
Ltac run_visit :=
  match goal with
  | |- context [visit ?a ?b ?c ?d ?e ?f ?g ?h] =>
      let v := eval vm_compute in (visit a b c d e f g h) in
      change (visit a b c d e f g h) with v; cbv beta iota
  end.

(** Pass the test of the loop at node [n] and evaluate the visit. *)
Ltac enter n :=
  rewrite (run_loop_enter _ _ _ _ _ _ _ _ _ n) by reflexivity; run_visit.

(** C2, the run on a graph with a dangling edge: the entry node is
    visited, the edge to the undeclared node [ghost] is selected, the test
    of the loop passes, and [self.nodes[current_node]] raises
    [KeyError('ghost')] out of [execute]. *)
Theorem dangling_target_raises fuel :
  execute tick_clock eval_demo demo_registry (S (S fuel)) dangling_engine
    [("score", VInt 0)]
  = Some (Raise (KeyError "ghost")).
Proof.
  unfold execute.
  match goal with |- match ?l with _ => _ end = _ =>
    assert (L : l = Some (Raise (KeyError "ghost"))) end.
  { enter "a". enter "ghost". reflexivity. }
  now rewrite L.
Qed.

Lemma score_loop now fuel cap :
  1 <= cap ->
  run_loop now eval_demo score_registry (S fuel) score_engine
    [("score", VInt 50);
     ("_meta", VDict [("start_time", VStr (now 0%nat));
                      ("iterations", VInt 0);
                      ("max_iterations", VInt cap)])]
    (Some "improve") [] 1
  = Some (Ok ([("score", VInt 80);
               ("_meta", VDict [("start_time", VStr (now 0%nat));
                                ("iterations", VInt 1);
                                ("max_iterations", VInt cap)])],
              [VDict [("node", VStr "improve");
                      ("timestamp", VStr (now 1%nat));
                      ("iteration", VInt 0);
                      ("status", VStr "success");
                      ("output", VDict [("score", VInt 80)])]],
              2%nat, Completed)).
Proof.
  intros Hcap.
  assert (G : loop_guard (Some "improve")
                [("score", VInt 50);
                 ("_meta", VDict [("start_time", VStr (now 0%nat));
                                  ("iterations", VInt 0);
                                  ("max_iterations", VInt cap)])]
              = Ok (Enter "improve")).
  { erewrite loop_guard_counts by reflexivity. simpl.
    destruct (0 <? cap) eqn:E; [reflexivity|]. apply Z.ltb_ge in E. lia. }
  rewrite (run_loop_enter _ _ _ _ _ _ _ _ _ _ G).
  change (visit now eval_demo score_registry score_engine
            [("score", VInt 50);
             ("_meta", VDict [("start_time", VStr (now 0%nat));
                              ("iterations", VInt 0);
                              ("max_iterations", VInt cap)])]
            "improve" [] 1)
    with (Ok ([("score", VInt 80);
               ("_meta", VDict [("start_time", VStr (now 0%nat));
                                ("iterations", VInt 1);
                                ("max_iterations", VInt cap)])],
              [VDict [("node", VStr "improve");
                      ("timestamp", VStr (now 1%nat));
                      ("iteration", VInt 0);
                      ("status", VStr "success");
                      ("output", VDict [("score", VInt 80)])]],
              @None string)).
  cbv beta iota. now apply run_loop_leave.
Qed.

Lemma score_execute now fuel :
  execute now eval_demo score_registry (S fuel) score_engine
    [("score", VInt 50)]
  = Some (Ok {| final_state :=
                  [("score", VInt 80);
                   ("_meta",
                    VDict [("start_time", VStr (now 0%nat));
                           ("iterations", VInt 1);
                           ("max_iterations", VInt 50);
                           ("end_time", VStr (now 2%nat));
                           ("execution_log",
                            VList [VDict [("node", VStr "improve");
                                          ("timestamp", VStr (now 1%nat));
                                          ("iteration", VInt 0);
                                          ("status", VStr "success");
                                          ("output",
                                           VDict [("score", VInt 80)])]])])];
                run_log :=
                  [VDict [("node", VStr "improve");
                          ("timestamp", VStr (now 1%nat));
                          ("iteration", VInt 0);
                          ("status", VStr "success");
                          ("output", VDict [("score", VInt 80)])]];
                exit_status := Completed |}).
Proof.
  unfold execute.
  change (run_loop now eval_demo score_registry (S fuel) score_engine
            (start_state now [("score", VInt 50)]) (entry_node score_engine)
            (execution_log score_engine) 1)
    with (run_loop now eval_demo score_registry (S fuel) score_engine
            [("score", VInt 50);
             ("_meta", VDict [("start_time", VStr (now 0%nat));
                              ("iterations", VInt 0);
                              ("max_iterations", VInt 50)])]
            (Some "improve") [] 1).
  rewrite score_loop by lia. reflexivity.
Qed.

(** C9 (as amended): on the one-node graph whose tool adds 30 to the score
    and whose self-loop is conditioned on [score < 70], started with a
    score of 50, the run is [Completed] after exactly one visit, with one
    log entry, a score of 80 and a counter of 1: the condition is
    evaluated on the merged state, where 80 < 70 is false.  [execute] has
    no parameter for the cap (it is the constant 50); the loop started on
    a state whose cap reads 3 does the same. *)
Theorem score_loop_runs_once now fuel :
  (exists out,
     execute now eval_demo score_registry (S fuel) score_engine
       [("score", VInt 50)] = Some (Ok out) /\
     length (run_log out) = 1%nat /\
     exit_status out = Completed /\
     dict_get (final_state out) "score" = Some (VInt 80) /\
     meta_get (final_state out) "iterations" = Ok (VInt 1)) /\
  (exists state' log' tick',
     run_loop now eval_demo score_registry (S fuel) score_engine
       [("score", VInt 50);
        ("_meta", VDict [("start_time", VStr (now 0%nat));
                         ("iterations", VInt 0);
                         ("max_iterations", VInt 3)])]
       (Some "improve") [] 1 = Some (Ok (state', log', tick', Completed)) /\
     length log' = 1%nat /\
     dict_get state' "score" = Some (VInt 80)).
Proof.
  split.
  - eexists. split; [apply score_execute|]. repeat split.
  - do 3 eexists. split; [apply score_loop; lia|]. split; reflexivity.
Qed.

(** C9, counterexample: no run of that graph from a score of 50 ends with
    three log entries, neither through [execute] nor through the loop
    started with a cap of 3. *)
Lemma score_loop_not_three_visits :
  (~ exists fuel out,
       execute tick_clock eval_demo score_registry fuel score_engine
         [("score", VInt 50)] = Some (Ok out) /\
       length (run_log out) = 3%nat) /\
  (~ exists fuel state' log' tick' why,
       run_loop tick_clock eval_demo score_registry fuel score_engine
         [("score", VInt 50);
          ("_meta", VDict [("start_time", VStr (tick_clock 0%nat));
                           ("iterations", VInt 0);
                           ("max_iterations", VInt 3)])]
         (Some "improve") [] 1 = Some (Ok (state', log', tick', why)) /\
       length log' = 3%nat).
Proof.
  split.
  - intros [[|fuel] [out [E L]]]; [discriminate E|].
    rewrite score_execute in E. injection E as <-. discriminate L.
  - intros [[|fuel] [state' [log' [tick' [why [E L]]]]]]; [discriminate E|].
    rewrite (score_loop tick_clock fuel 3) in E by lia.
    injection E as <- <- <- <-. discriminate L.
Qed.

(** ** Further facts about dictionaries *)

Section MoreDictFacts.
Context {A : Type}.
Implicit Types (d r : list (string * A)) (k : string) (v : A).

Lemma dict_set_same d k v : dict_get d k = Some v -> dict_set d k v = d.
Proof.
  induction d as [|[k0 v0] d IH]; simpl; [discriminate|].
  destruct (String.eqb k0 k) eqn:E.
  - now intros [= ->].
  - intros H. now rewrite IH.
Qed.

Lemma dict_update_app d r r' :
  dict_update d (r ++ r') = dict_update (dict_update d r) r'.
Proof. unfold dict_update. apply fold_left_app. Qed.

(** Lookup after [d.update(r)]: the last binding of the key in [r] if it
    has one, the binding of [d] otherwise. *)
Lemma dict_get_update d r k :
  dict_get (dict_update d r) k =
  match dict_get (rev r) k with
  | Some v => Some v
  | None => dict_get d k
  end.
Proof.
  induction r as [|[k0 v0] r IH] using rev_ind; [reflexivity|].
  rewrite dict_update_app, rev_app_distr. simpl.
  unfold dict_update at 1. simpl. rewrite dict_get_set.
  destruct (String.eqb k0 k); [reflexivity|exact IH].
Qed.
End MoreDictFacts.





(** ** What every run leaves behind *)

Section RunFacts.
Variable now : nat -> string.
Variable py_eval : string -> pydict -> eval_outcome.
Variable tool_registry : gmap string Callable.

Lemma visit_appends self state n log tick state' log' next :
  visit now py_eval tool_registry self state n log tick
  = Ok (state', log', next) ->
  exists e, log' = log ++ [VDict e] /\
            is_log_entry (VDict e) = true /\
            dict_get e "node" = Some (VStr n).
Proof.
  unfold visit.
  destruct (dict_getitem (nodes self) n) as [cfg|]; simpl; [|discriminate].
  destruct (meta_get state "iterations") as [it|]; simpl; [|discriminate].
  unfold invoke.
  destruct (tool_registry !! tool cfg) as [f|];
    [destruct (f state (params cfg)) as [output|msg]|]; simpl;
    match goal with |- context [bump_iterations ?s] =>
      destruct (bump_iterations s); simpl; [|discriminate] end;
    intros [= _ <- _]; eexists; repeat split.
Qed.

Lemma run_loop_appends fuel : forall self state current_node log tick
    state' log' tick' why,
  run_loop now py_eval tool_registry fuel self state current_node log tick
  = Some (Ok (state', log', tick', why)) ->
  exists added, log' = log ++ added /\ forallb is_log_entry added = true.
Proof.
  induction fuel as [|fuel IH]; intros self state current_node log tick
    state' log' tick' why; simpl;
    destruct (loop_guard current_node state) as [[n|w]|e]; try discriminate;
    try (intros [= _ <- _ _]; exists []; now rewrite app_nil_r).
  destruct (visit now py_eval tool_registry self state n log tick)
    as [[[st1 log1] next]|] eqn:V; [|discriminate].
  intros R. destruct (visit_appends _ _ _ _ _ _ _ _ V) as [e [-> [He _]]].
  destruct (IH _ _ _ _ _ _ _ _ _ R) as [added [-> Ha]].
  exists (VDict e :: added). rewrite <- app_assoc. split; [reflexivity|].
  cbn [forallb]. now rewrite He, Ha.
Qed.

Lemma finish_spec state log tick state' :
  finish now state log tick = Ok state' ->
  exists m,
    dict_get state "_meta" = Some (VDict m) /\
    state' = dict_set state "_meta"
               (VDict (dict_set (dict_set m "end_time" (VStr (now tick)))
                         "execution_log" (VList log))).
Proof.
  unfold finish, meta_set, dict_getitem.
  destruct (dict_get state "_meta") as [[| | | | |m]|]; simpl;
    try discriminate.
  rewrite dict_get_set_eq. simpl. rewrite dict_set_set.
  intros [= <-]. now exists m.
Qed.

(** X1: the log is append-only.  Whatever the graph, the tools and the
    state, a run that returns has only added entries behind the ones the
    engine already held; every added entry is a dict whose status is
    [success], [error] or [tool_not_found]; and the returned state carries
    that very log under [_meta.execution_log]. *)
Theorem execute_log_append_only fuel self initial_state out :
  execute now py_eval tool_registry fuel self initial_state = Some (Ok out) ->
  exists added,
    run_log out = execution_log self ++ added /\
    forallb is_log_entry added = true /\
    meta_get (final_state out) "execution_log" = Ok (VList (run_log out)).
Proof.
  unfold execute.
  destruct (run_loop now py_eval tool_registry fuel self
              (start_state now initial_state) (entry_node self)
              (execution_log self) 1)
    as [[[[[state log] tick] why]|]|] eqn:R; try discriminate.
  destruct (finish now state log tick) as [state'|] eqn:F; simpl;
    [|discriminate].
  intros [= <-]. simpl.
  destruct (run_loop_appends _ _ _ _ _ _ _ _ _ _ R) as [added [-> Ha]].
  exists added. repeat split; [exact Ha|].
  destruct (finish_spec _ _ _ _ F) as [m [_ ->]].
  erewrite meta_get_dict by apply dict_get_set_eq.
  unfold dict_getitem. now rewrite dict_get_set_eq.
Qed.

Lemma run_loop_step (K : keeps_meta tool_registry) fuel self state n log tick
    cfg m i cap :
  n <> "" ->
  dict_get (nodes self) n = Some cfg ->
  dict_get state "_meta" = Some (VDict m) ->
  dict_get m "iterations" = Some (VInt i) ->
  dict_get m "max_iterations" = Some (VInt cap) ->
  i < cap ->
  exists state' e,
    run_loop now py_eval tool_registry (S fuel) self state (Some n) log tick =
    run_loop now py_eval tool_registry fuel self state'
      (_get_next_node py_eval self n state') (log ++ [VDict e]) (S tick) /\
    dict_get state' "_meta"
    = Some (VDict (dict_set m "iterations" (VInt (i + 1)))) /\
    e = snd (invoke tool_registry cfg state
               [("node", VStr n); ("timestamp", VStr (now tick));
                ("iteration", VInt i)]) /\
    dict_get e "node" = Some (VStr n) /\
    is_log_entry (VDict e) = true.
Proof.
  intros Hn N Hm Hi Hc Hlt.
  assert (G : loop_guard (Some n) state = Ok (Enter n)).
  { rewrite (loop_guard_counts _ _ _ _ _ Hm Hi Hc).
    apply String.eqb_neq in Hn. rewrite Hn.
    apply Z.ltb_lt in Hlt. now rewrite Hlt. }
  pose proof (visit_counter now py_eval tool_registry self state n log tick
                cfg m i N Hm Hi) as V. cbv zeta in V.
  rewrite invoke_keeps_meta in V by assumption. specialize (V Hm).
  destruct (visit_appends _ _ _ _ _ _ _ _ V) as [e [E [He Hnode]]].
  apply app_inv_head in E. injection E as E.
  eexists. exists e. split; [|split; [|split; [|split]]].
  - rewrite (run_loop_enter _ _ _ _ _ _ _ _ _ _ G), V, E. reflexivity.
  - apply dict_get_set_eq.
  - now symmetry.
  - exact Hnode.
  - exact He.
Qed.

End RunFacts.

Section RunProperties.
Variable now : nat -> string.
Variable py_eval : string -> pydict -> eval_outcome.
Variable tool_registry : gmap string Callable.

Lemma finish_ok state log tick m :
  dict_get state "_meta" = Some (VDict m) ->
  finish now state log tick =
  Ok (dict_set state "_meta"
        (VDict (dict_set (dict_set m "end_time" (VStr (now tick)))
                  "execution_log" (VList log)))).
Proof.
  intros Hm. unfold finish. rewrite (meta_set_dict _ _ _ _ Hm). simpl bind.
  erewrite meta_set_dict by apply dict_get_set_eq. now rewrite dict_set_set.
Qed.

Lemma execute_no_visit fuel self initial_state :
  loop_guard (entry_node self) (start_state now initial_state)
  = Ok (Leave Completed) ->
  execute now py_eval tool_registry fuel self initial_state =
  Some (Ok {| final_state :=
                dict_set initial_state "_meta"
                  (VDict [("start_time", VStr (now 0%nat));
                          ("iterations", VInt 0);
                          ("max_iterations", VInt 50);
                          ("end_time", VStr (now 1%nat));
                          ("execution_log", VList (execution_log self))]);
              run_log := execution_log self;
              exit_status := Completed |}).
Proof.
  intros G. unfold execute. rewrite (run_loop_leave _ _ _ _ _ _ _ _ _ _ G).
  erewrite finish_ok by apply dict_get_set_eq.
  unfold start_state. simpl bind. now rewrite dict_set_set.
Qed.

(** X4: a [_meta] entry supplied by the caller in the initial state has
    no effect whatsoever: setting it to any value before the run gives the
    very run of the state as it was, outcome, state and log.  In
    particular the cap cannot be set through the initial state. *)
Theorem caller_meta_is_discarded fuel self initial_state v :
  execute now py_eval tool_registry fuel self
    (dict_set initial_state "_meta" v) =
  execute now py_eval tool_registry fuel self initial_state.
Proof. unfold execute, start_state. now rewrite dict_set_set. Qed.

(** X5: a graph whose first declared node has the empty name runs
    nothing: the empty string is falsy in the test of the loop, so no node
    is visited, whatever the rest of the definition, and the run is
    [Completed] with an empty log. *)
Theorem blank_entry_name_runs_nothing gid t p rest edges initial_state fuel :
  execute now py_eval tool_registry fuel
    (WorkflowEngine_init gid
       ({| name := ""; tool := t; params := p |} :: rest) edges)
    initial_state =
  Some (Ok {| final_state :=
                dict_set initial_state "_meta"
                  (VDict [("start_time", VStr (now 0%nat));
                          ("iterations", VInt 0);
                          ("max_iterations", VInt 50);
                          ("end_time", VStr (now 1%nat));
                          ("execution_log", VList [])]);
              run_log := [];
              exit_status := Completed |}).
Proof.
  apply execute_no_visit. unfold entry_node. simpl nodes.
  now rewrite node_map_head.
Qed.


End RunProperties.


(** X1, witness: the run of the score graph. *)
Lemma execute_log_append_only_witness :
  exists out added,
    execute tick_clock eval_demo score_registry 1 score_engine
      [("score", VInt 50)] = Some (Ok out) /\
    run_log out = execution_log score_engine ++ added /\
    forallb is_log_entry added = true.
Proof.
  pose proof (score_execute tick_clock 0) as E.
  destruct (execute_log_append_only _ _ _ _ _ _ _ E) as [added [L [F _]]].
  eexists. exists added. split; [exact E|]. split; [exact L|exact F].
Defined.




(** ** The code review workflow *)

Lemma eval_review_sound : review_condition_sound eval_review.
Proof.
  intros state v E T. unfold eval_review in E.
  rewrite String.eqb_refl in E.
  destruct (py_lt (default (VInt 100) (dict_get state "quality_score"))
              (VInt 70)) as [[|]|]; try discriminate.
  - destruct (meta_get state "iterations") as [i|]; [|discriminate].
    exists i. split; [reflexivity|].
    destruct (py_lt i (VInt 3)) as [[|]|]; try discriminate; [reflexivity|].
    injection E as <-. discriminate T.
  - injection E as <-. discriminate T.
Qed.

Section ReviewFacts.
Variable now : nat -> string.
Variable py_eval : string -> pydict -> eval_outcome.
Variable tool_registry : gmap string Callable.
Hypothesis K : keeps_meta tool_registry.
Hypothesis S3 : review_condition_sound py_eval.

(** Once the counter has passed 3 the self-loop of [improve] is dead. *)
Lemma review_loop_inactive state m i :
  dict_get state "_meta" = Some (VDict m) ->
  dict_get m "iterations" = Some (VInt i) ->
  3 <= i ->
  py_truthy (_evaluate_condition py_eval (Some review_condition) state)
  = false.
Proof.
  intros Hm Hi Hle. unfold _evaluate_condition.
  change (String.eqb review_condition "") with false. cbv iota.
  destruct (py_eval review_condition state) as [v|] eqn:E; [|reflexivity].
  destruct (py_truthy v) eqn:T; [|reflexivity].
  destruct (S3 _ _ E T) as [j [Hj Hlt]].
  rewrite (meta_get_dict _ _ _ Hm) in Hj. unfold dict_getitem in Hj.
  rewrite Hi in Hj. injection Hj as <-. simpl in Hlt.
  injection Hlt as Hlt. apply Z.ltb_lt in Hlt. lia.
Qed.

Lemma invoke_ran_tool cfg state n ts it f :
  tool_registry !! tool cfg = Some f ->
  ran_tool (snd (invoke tool_registry cfg state
                   [("node", VStr n); ("timestamp", VStr ts);
                    ("iteration", it)])).
Proof.
  intros L. unfold invoke.
  destruct (tool_registry !! tool cfg) as [g|]; [|discriminate].
  destruct (g state (params cfg)); [left|right]; reflexivity.
Qed.

(** The loop of the review workflow: four visits in the declared order. *)
Lemma review_loop gid initial_state fuel :
  exists state' e1 e2 e3 e4,
    run_loop now py_eval tool_registry (4 + fuel)
      (WorkflowEngine_init gid review_nodes review_edges)
      (start_state now initial_state) (Some "extract") [] 1
    = Some (Ok (state', [VDict e1; VDict e2; VDict e3; VDict e4], 5%nat,
                Completed)) /\
    dict_get state' "_meta"
    = Some (VDict [("start_time", VStr (now 0%nat)); ("iterations", VInt 4);
                   ("max_iterations", VInt 50)]) /\
    (dict_get e1 "node" = Some (VStr "extract") /\
     dict_get e2 "node" = Some (VStr "complexity") /\
     dict_get e3 "node" = Some (VStr "issues") /\
     dict_get e4 "node" = Some (VStr "improve")) /\
    (is_Some (tool_registry !! "extract_functions") -> ran_tool e1) /\
    (is_Some (tool_registry !! "check_complexity") -> ran_tool e2) /\
    (is_Some (tool_registry !! "detect_issues") -> ran_tool e3) /\
    (is_Some (tool_registry !! "suggest_improvements") -> ran_tool e4).
Proof.
  set (self := WorkflowEngine_init gid review_nodes review_edges).
  assert (Hm0 : dict_get (start_state now initial_state) "_meta"
                = Some (initial_meta now)) by apply dict_get_set_eq.
  destruct (run_loop_step now py_eval tool_registry K (3 + fuel) self
              (start_state now initial_state) "extract" [] 1%nat _ _ 0 50
              ltac:(discriminate) eq_refl Hm0 eq_refl eq_refl ltac:(lia))
    as [st1 [e1 [R1 [M1 [E1 [N1 _]]]]]].
  change (_get_next_node py_eval self "extract" st1)
    with (Some "complexity") in R1.
  destruct (run_loop_step now py_eval tool_registry K (2 + fuel) self
              st1 "complexity" ([] ++ [VDict e1]) 2%nat _ _ _ 50
              ltac:(discriminate) eq_refl M1 eq_refl eq_refl ltac:(lia))
    as [st2 [e2 [R2 [M2 [E2 [N2 _]]]]]].
  change (_get_next_node py_eval self "complexity" st2)
    with (Some "issues") in R2.
  destruct (run_loop_step now py_eval tool_registry K (1 + fuel) self
              st2 "issues" (([] ++ [VDict e1]) ++ [VDict e2]) 3%nat _ _ _ 50
              ltac:(discriminate) eq_refl M2 eq_refl eq_refl ltac:(lia))
    as [st3 [e3 [R3 [M3 [E3 [N3 _]]]]]].
  change (_get_next_node py_eval self "issues" st3)
    with (Some "improve") in R3.
  destruct (run_loop_step now py_eval tool_registry K fuel self
              st3 "improve" ((([] ++ [VDict e1]) ++ [VDict e2]) ++ [VDict e3])
              4%nat _ _ _ 50
              ltac:(discriminate) eq_refl M3 eq_refl eq_refl ltac:(lia))
    as [st4 [e4 [R4 [M4 [E4 [N4 _]]]]]].
  change (_get_next_node py_eval self "improve" st4)
    with (if py_truthy (_evaluate_condition py_eval (Some review_condition)
                          st4)
          then Some "improve" else None) in R4.
  erewrite review_loop_inactive in R4;
    [| exact M4 | reflexivity | simpl; lia].
  rewrite (run_loop_leave now py_eval tool_registry fuel self st4 None _ _
             Completed eq_refl) in R4.
  exists st4, e1, e2, e3, e4.
  split; [|split; [exact M4|split; [now repeat split|]]].
  - change (4 + fuel)%nat with (S (3 + fuel)). rewrite R1.
    change (3 + fuel)%nat with (S (2 + fuel)). rewrite R2.
    change (2 + fuel)%nat with (S (1 + fuel)). rewrite R3.
    change (1 + fuel)%nat with (S fuel). rewrite R4. reflexivity.
  - repeat split; intros [f L].
    + rewrite E1. now apply (invoke_ran_tool _ _ _ _ _ f).
    + rewrite E2. now apply (invoke_ran_tool _ _ _ _ _ f).
    + rewrite E3. now apply (invoke_ran_tool _ _ _ _ _ f).
    + rewrite E4. now apply (invoke_ran_tool _ _ _ _ _ f).
Qed.

End ReviewFacts.

Lemma keeps_meta_empty : keeps_meta ∅.
Proof. intros t f state params output L. now rewrite lookup_empty in L. Qed.

Lemma keeps_meta_register n f tool_registry :
  tool_keeps_meta f ->
  keeps_meta tool_registry ->
  keeps_meta (register_tool n f tool_registry).
Proof.
  intros Hf K t g state params output L C. unfold register_tool in L.
  apply lookup_insert_Some in L as [[_ <-]|[_ L]].
  - exact (Hf _ _ _ C).
  - exact (K _ _ _ _ _ L C).
Qed.

Lemma add_30_keeps_meta : tool_keeps_meta add_30.
Proof.
  intros state params output C. unfold add_30 in C.
  destruct (dict_get state "score") as [v|]; [|discriminate].
  destruct (py_add_int v 30); [|discriminate].
  now injection C as <-.
Qed.

Lemma failing_keeps_meta : tool_keeps_meta failing.
Proof. intros state params output C. discriminate C. Qed.

Lemma setup_keeps_meta ef cc di si tool_registry :
  tool_keeps_meta ef -> tool_keeps_meta cc -> tool_keeps_meta di ->
  tool_keeps_meta si -> keeps_meta tool_registry ->
  keeps_meta (setup_code_review_workflow ef cc di si tool_registry).
Proof.
  intros. unfold setup_code_review_workflow.
  now repeat apply keeps_meta_register.
Qed.

(** X10: after [setup_code_review_workflow], every node of the shipped
    workflow finds its tool: whatever was registered before and whatever
    the four tool functions do (as long as they keep [_meta]), the run of
    the workflow has four log entries and each has status [success] or
    [error], never [tool_not_found]. *)
Theorem review_workflow_tools_all_bound now py_eval ef cc di si tool_registry
    gid initial_state fuel :
  keeps_meta (setup_code_review_workflow ef cc di si tool_registry) ->
  review_condition_sound py_eval ->
  exists out,
    execute now py_eval (setup_code_review_workflow ef cc di si tool_registry)
      (4 + fuel) (WorkflowEngine_init gid review_nodes review_edges)
      initial_state
    = Some (Ok out) /\
    length (run_log out) = 4%nat /\
    Forall (fun v => log_status v = Some (VStr "success") \/
                     log_status v = Some (VStr "error")) (run_log out).
Proof.
  intros K S3.
  destruct (review_loop now py_eval _ K S3 gid initial_state fuel)
    as [st [e1 [e2 [e3 [e4 [R [M [_ [T1 [T2 [T3 T4]]]]]]]]]]].
  eexists. split; [|split].
  - unfold execute.
    change (entry_node (WorkflowEngine_init gid review_nodes review_edges))
      with (Some "extract").
    change (execution_log (WorkflowEngine_init gid review_nodes review_edges))
      with (@nil value).
    rewrite R. erewrite (finish_ok now) by exact M. reflexivity.
  - reflexivity.
  - unfold setup_code_review_workflow, register_tool in T1, T2, T3, T4.
    simpl run_log.
    constructor; [|constructor; [|constructor; [|constructor; [|constructor]]]].
    + apply T1. rewrite !lookup_insert_ne by discriminate.
      rewrite lookup_insert_eq. eauto.
    + apply T2. rewrite !lookup_insert_ne by discriminate.
      rewrite lookup_insert_eq. eauto.
    + apply T3. rewrite lookup_insert_ne by discriminate.
      rewrite lookup_insert_eq. eauto.
    + apply T4. rewrite lookup_insert_eq. eauto.
Qed.


(** X10, witness: the setup with [add_30] and [failing] standing for the
    four tool functions. *)
Lemma review_workflow_tools_all_bound_witness :
  exists out,
    execute tick_clock eval_review
      (setup_code_review_workflow add_30 failing add_30 failing ∅) 4
      (WorkflowEngine_init "review" review_nodes review_edges)
      [("score", VInt 0)]
    = Some (Ok out) /\
    length (run_log out) = 4%nat.
Proof.
  destruct (review_workflow_tools_all_bound tick_clock eval_review
              add_30 failing add_30 failing ∅ "review" [("score", VInt 0)] 0
              (setup_keeps_meta _ _ _ _ _ add_30_keeps_meta
                 failing_keeps_meta add_30_keeps_meta failing_keeps_meta
                 keeps_meta_empty)
              eval_review_sound) as [out [E [L _]]].
  exists out. split; [exact E|exact L].
Defined.

(** ** The HTTP handlers *)

Section HandlerFacts.
Variable now : nat -> string.
Variable py_eval : string -> pydict -> eval_outcome.
Variable tool_registry : gmap string Callable.

(** X11: [run_graph] answers 404 exactly when the graph id is not in the
    store, with any fuel; it raises no other [HTTPException]; and whenever
    it raises -- the 404 or an exception out of the engine -- the stores
    are left as they were, so a failed run is never recorded. *)
Theorem run_graph_raises_without_trace fuel uuid created_at request db :
  (workflow_storage db !! request_graph_id request = None ->
   run_graph now py_eval tool_registry fuel uuid created_at request db
   = Some (db, inl (HTTPException 404 "Graph not found"))) /\
  (forall db' code detail,
     run_graph now py_eval tool_registry fuel uuid created_at request db
     = Some (db', inl (HTTPException code detail)) ->
     workflow_storage db !! request_graph_id request = None /\
     code = 404%nat) /\
  (forall db' x,
     run_graph now py_eval tool_registry fuel uuid created_at request db
     = Some (db', inl x) ->
     db' = db).
Proof.
  unfold run_graph. split; [|split].
  - now intros ->.
  - intros db' code detail.
    destruct (workflow_storage db !! request_graph_id request) as [g|].
    + destruct (execute _ _ _ _ _ _) as [[out|e]|]; discriminate.
    + now intros [= _ <- _].
  - intros db' x.
    destruct (workflow_storage db !! request_graph_id request) as [g|].
    + destruct (execute _ _ _ _ _ _) as [[out|e]|]; try discriminate.
      now intros [= <- _].
    + now intros [= <- _].
Qed.

(** X12: create, run, read back.  When the engine returns on the graph of
    a create request, [run_graph] on the id that [create_graph] answered
    gives the state and the log of that run on a fresh engine, records the
    run under the new run id, and [get_run_state] on that id reads the
    final state back; every other run id reads as before, and the graph
    store is not touched by the run. *)
Theorem create_run_read_round_trip fuel graph_uuid t1 run_uuid t2 request
    initial_state db out :
  let created := create_graph graph_uuid t1 request db in
  execute now py_eval tool_registry fuel
    (WorkflowEngine_init (snd created) (request_nodes request)
       (request_edges request)) initial_state
  = Some (Ok out) ->
  exists db',
    run_graph now py_eval tool_registry fuel run_uuid t2
      {| request_graph_id := snd created;
         request_initial_state := initial_state |} (fst created)
    = Some (db', inr {| response_run_id := run_uuid;
                        response_final_state := final_state out;
                        response_execution_log := run_log out |}) /\
    get_run_state run_uuid db'
    = inr {| run_graph_id := snd created; run_state := final_state out;
             run_created_at := t2 |} /\
    (forall other, other <> run_uuid ->
       get_run_state other db' = get_run_state other db) /\
    workflow_storage db' = workflow_storage (fst created).
Proof.
  intros created E. unfold run_graph. simpl.
  rewrite lookup_insert_eq. simpl. simpl in E. rewrite E.
  eexists. split; [reflexivity|]. unfold get_run_state. simpl.
  rewrite lookup_insert_eq. repeat split.
  intros other Ho. now rewrite lookup_insert_ne by congruence.
Qed.

End HandlerFacts.

(** X14: [health_check] counts what [create_graph] stored: a graph
    created under an id not yet in the store raises the count of graphs by
    one, a graph created under an id already there replaces the old one
    and leaves the count; the count of runs is not touched. *)
Theorem health_counts_created_graphs uuid created_at request db :
  let db' := fst (create_graph uuid created_at request db) in
  (workflow_storage db !! uuid = None ->
   health_check db' = (S (fst (health_check db)), snd (health_check db))) /\
  (is_Some (workflow_storage db !! uuid) ->
   health_check db' = health_check db).
Proof.
  unfold health_check, create_graph. simpl. split.
  - intros H. now rewrite map_size_insert_None.
  - intros [g H]. now rewrite map_size_insert_Some.
Qed.

(** X12, witness: the score graph created on an empty server, then run. *)
Lemma create_run_read_round_trip_witness :
  exists db' response,
    run_graph tick_clock eval_demo score_registry 1 "run-1" "t2"
      {| request_graph_id := "graph-1";
         request_initial_state := [("score", VInt 50)] |}
      (fst (create_graph "graph-1" "t1" score_request empty_storage))
    = Some (db', inr response) /\
    get_run_state "run-1" db'
    = inr {| run_graph_id := "graph-1";
             run_state := response_final_state response;
             run_created_at := "t2" |}.
Proof.
  destruct (execute tick_clock eval_demo score_registry 1
              (WorkflowEngine_init "graph-1" (request_nodes score_request)
                 (request_edges score_request)) [("score", VInt 50)])
    as [[out|e]|] eqn:E; [|vm_compute in E; discriminate..].
  destruct (create_run_read_round_trip tick_clock eval_demo score_registry 1
              "graph-1" "t1" "run-1" "t2" score_request [("score", VInt 50)]
              empty_storage out E) as [db' [R [G _]]].
  exists db'. eexists. split; [exact R|exact G].
Defined.

(** ** The tool [detect_issues] *)

Lemma prefix_spec sub : forall s,
  String.prefix sub s = true <-> exists post, s = sub +:+ post.
Proof.
  induction sub as [|a sub IH]; intros [|b s]; simpl.
  - split; [intros _; now exists ""|reflexivity].
  - split; [intros _; now exists (String b s)|reflexivity].
  - split; [discriminate|intros [post H]; discriminate].
  - destruct (Ascii.ascii_dec a b) as [->|Hne].
    + rewrite IH. split; intros [post H]; exists post.
      * now rewrite H.
      * change (String b s = String b (sub +:+ post)) in H. congruence.
    + split; [discriminate|]. intros [post H].
      change (String b s = String a (sub +:+ post)) in H. congruence.
Qed.

Lemma str_contains_spec sub s :
  str_contains sub s = true <-> exists pre post, s = pre +:+ sub +:+ post.
Proof.
  split.
  - induction s as [|c s IH]; intros H; cbn [str_contains] in H;
      apply orb_true_iff in H as [H|H]; try discriminate.
    + apply prefix_spec in H as [post H]. now exists "", post.
    + apply prefix_spec in H as [post H]. now exists "", post.
    + destruct (IH H) as [pre [post ->]]. now exists (String c pre), post.
  - intros [pre [post ->]]. induction pre as [|c pre IH].
    + change ("" +:+ sub +:+ post) with (sub +:+ post).
      assert (P : String.prefix sub (sub +:+ post) = true)
        by (apply prefix_spec; now exists post).
      destruct (sub +:+ post); cbn [str_contains]; now rewrite P.
    + change (String c pre +:+ sub +:+ post)
        with (String c (pre +:+ sub +:+ post)).
      cbn [str_contains]. rewrite IH. apply orb_true_r.
Qed.

Section ToolFacts.
Variable py_repr : value -> string.

Lemma check_function_issue func issue :
  check_function py_repr func = Ok (Some issue) -> is_issue issue = true.
Proof.
  unfold check_function.
  destruct (py_get func "args_count" (VInt 0)) as [a|]; simpl; [|discriminate].
  destruct (py_gt_int a 5) as [[|]|]; simpl; try discriminate.
  destruct (py_getitem func "name") as [n|]; simpl; [|discriminate].
  now intros [= <-].
Qed.

Lemma check_functions_appends functions : forall issues res,
  check_functions py_repr functions issues = Ok res ->
  exists extra,
    res = issues ++ extra /\
    forallb is_issue extra = true /\
    (length extra <= length functions)%nat.
Proof.
  induction functions as [|func rest IH]; intros issues res; simpl.
  - intros [= <-]. exists []. rewrite app_nil_r. repeat split. simpl. lia.
  - destruct (check_function py_repr func) as [[issue|]|] eqn:C; simpl;
      [| |discriminate]; intros R; apply IH in R as [extra [-> [F L]]].
    + exists (issue :: extra). rewrite <- app_assoc. repeat split.
      * cbn [forallb]. now rewrite (check_function_issue _ _ C), F.
      * simpl. lia.
    + exists extra. repeat split; [exact F|lia].
Qed.

(** X15: whatever the state, when [detect_issues] returns, its mapping
    has exactly the keys [issues] and [issue_count]; [issue_count] is the
    length of [issues]; every issue is a dict of a type, a message and a
    severity, with one of the four types and of the two severities; and
    there are at most three issues more than there are functions. *)
Theorem detect_issues_output_shape state output :
  detect_issues py_repr state = Ok output ->
  exists issues functions,
    output = [("issues", VList issues);
              ("issue_count", VInt (Z.of_nat (length issues)))] /\
    forallb is_issue issues = true /\
    py_iter (default (VList []) (dict_get state "functions")) = Ok functions /\
    (length issues <= 3 + length functions)%nat.
Proof.
  unfold detect_issues.
  destruct (py_len _) as [n|]; simpl; [|discriminate].
  destruct (py_count _ _) as [g|]; simpl; [|discriminate].
  destruct (py_contains "except:" _) as [b1|]; simpl; [|discriminate].
  destruct (if b1 then Ok true else py_contains "except :" _) as [b|]; simpl;
    [|discriminate].
  destruct (py_iter _) as [functions|]; simpl; [|discriminate].
  destruct (check_functions _ _ _) as [issues|] eqn:C; simpl; [|discriminate].
  intros [= <-]. apply check_functions_appends in C as [extra [-> [F L]]].
  eexists. exists functions. split; [reflexivity|].
  rewrite forallb_app, F, length_app.
  destruct (5000 <? n), (2 <? g), b; simpl; repeat split; lia.
Qed.

Lemma check_function_record f :
  check_function py_repr (function_record f) =
  Ok (if 5 <? info_args_count f
      then Some (parameters_issue py_repr (VStr (info_name f)))
      else None).
Proof.
  unfold check_function. simpl. now destruct (5 <? info_args_count f).
Qed.

Lemma check_functions_records functions : forall issues,
  check_functions py_repr (map function_record functions) issues =
  Ok (issues ++ functions_issues py_repr functions).
Proof.
  unfold functions_issues.
  induction functions as [|f rest IH]; intros issues; simpl.
  - now rewrite app_nil_r.
  - unfold check_function. simpl.
    destruct (5 <? info_args_count f); simpl; rewrite IH;
      [now rewrite <- app_assoc|reflexivity].
Qed.

Lemma detect_issues_text code functions state :
  default (VStr "") (dict_get state "code") = VStr code ->
  dict_get state "functions" = Some (VList (map function_record functions)) ->
  detect_issues py_repr state =
  let issues := text_issues code ++ functions_issues py_repr functions in
  Ok [("issues", VList issues);
      ("issue_count", VInt (Z.of_nat (length issues)))].
Proof.
  intros Hc Hf. unfold detect_issues. rewrite Hc, Hf.
  cbn [from_option id py_len py_count py_contains py_iter bind].
  unfold text_issues.
  destruct (5000 <? _), (2 <? _), (str_contains "except:" code),
    (str_contains "except :" code);
    cbn [bind orb]; rewrite check_functions_records; reflexivity.
Qed.

(** X16: on a state as the workflow builds it -- [code] a text and
    [functions] the records of [extract_functions] -- [detect_issues]
    raises nothing and reports, in this order, the issues of the text
    (length over 5000, more than two [global ] , a bare [except]) and one
    [parameters] issue for each function of more than five parameters, in
    the order of the functions and naming each. *)
Theorem detect_issues_on_records code functions state :
  dict_get state "code" = Some (VStr code) ->
  dict_get state "functions" = Some (VList (map function_record functions)) ->
  detect_issues py_repr state =
  let issues := text_issues code ++ functions_issues py_repr functions in
  Ok [("issues", VList issues);
      ("issue_count", VInt (Z.of_nat (length issues)))].
Proof. intros Hc Hf. apply detect_issues_text; [now rewrite Hc|exact Hf]. Qed.

(** X17: on such a state the [exception] issue is reported exactly when
    the text contains [except:] or [except :] somewhere. *)
Theorem bare_except_reported_iff code functions state :
  dict_get state "code" = Some (VStr code) ->
  dict_get state "functions" = Some (VList (map function_record functions)) ->
  exists issues,
    detect_issues py_repr state
    = Ok [("issues", VList issues);
          ("issue_count", VInt (Z.of_nat (length issues)))] /\
    (In exception_issue issues <->
     exists pre post, code = pre +:+ "except:" +:+ post \/
                      code = pre +:+ "except :" +:+ post).
Proof.
  intros Hc Hf. exists (text_issues code ++ functions_issues py_repr functions).
  split; [apply detect_issues_text; [now rewrite Hc|exact Hf]|].
  assert (B : str_contains "except:" code || str_contains "except :" code
              = true <->
              exists pre post, code = pre +:+ "except:" +:+ post \/
                               code = pre +:+ "except :" +:+ post).
  { rewrite orb_true_iff, !str_contains_spec. split.
    - intros [[pre [post H]]|[pre [post H]]]; exists pre, post; auto.
    - intros [pre [post [H|H]]]; [left|right]; now exists pre, post. }
  rewrite <- B. unfold text_issues, functions_issues.
  rewrite !in_app_iff, in_map_iff.
  destruct (str_contains "except:" code || str_contains "except :" code).
  - split; [reflexivity|]. intros _. left. right. right. now left.
  - split; [|discriminate].
    intros [[H|[H|H]]|[f [H _]]].
    + destruct (5000 <? _); [destruct H as [H|[]]; discriminate H|destruct H].
    + destruct (2 <? _); [destruct H as [H|[]]; discriminate H|destruct H].
    + destruct H.
    + discriminate H.
Qed.

(** The two keys are optional.  A state with neither [code] nor
    [functions] is the empty text with no function: nothing is raised and
    no issue is reported. *)
Theorem detect_issues_defaults state :
  dict_get state "code" = None ->
  dict_get state "functions" = None ->
  detect_issues py_repr state
  = Ok [("issues", VList []); ("issue_count", VInt 0)].
Proof. intros Hc Hf. unfold detect_issues. now rewrite Hc, Hf. Qed.

(** X18: a function record without a [name] makes [detect_issues] raise
    [KeyError('name')], but only when it has more than five parameters:
    the name is looked up for the message alone.  This holds after any
    number of well-formed records and whatever follows. *)
Theorem unnamed_function_raises code before f a after state :
  dict_get state "code" = Some (VStr code) ->
  dict_get state "functions"
  = Some (VList (map function_record before ++ VDict f :: after)) ->
  dict_get f "args_count" = Some (VInt a) ->
  dict_get f "name" = None ->
  (5 < a ->
   detect_issues py_repr state = Raise (KeyError "name")) /\
  (a <= 5 ->
   detect_issues py_repr state =
   detect_issues py_repr
     (dict_set state "functions"
        (VList (map function_record before ++ after)))).
Proof.
  intros Hc Hf Ha Hn.
  assert (Step : forall rest issues,
    check_functions py_repr (map function_record before ++ VDict f :: rest)
      issues =
    if 5 <? a then Raise (KeyError "name")
    else check_functions py_repr (map function_record before ++ rest) issues).
  { clear Hf. intros rest. induction before as [|g before IH]; intros issues.
    - simpl. unfold check_function. simpl. rewrite Ha. simpl.
      destruct (5 <? a); simpl; [|reflexivity].
      unfold dict_getitem. now rewrite Hn.
    - cbn [map app check_functions]. rewrite check_function_record.
      cbn [bind]. apply IH. }
  unfold detect_issues. rewrite dict_get_set_eq.
  rewrite dict_get_set_ne by discriminate. rewrite Hc, Hf.
  cbn [from_option id py_len py_count py_contains py_iter bind].
  split; intros H; [apply Z.ltb_lt in H|apply Z.ltb_ge in H];
    destruct (5000 <? _), (2 <? _), (str_contains "except:" code),
      (str_contains "except :" code);
    cbn [bind]; rewrite Step, H; reflexivity.
Qed.
End ToolFacts.

(** X15, witness: the sample state. *)
Lemma detect_issues_output_shape_witness :
  exists output issues,
    detect_issues repr_unused sample_state = Ok output /\
    output = [("issues", VList issues);
              ("issue_count", VInt (Z.of_nat (length issues)))] /\
    forallb is_issue issues = true.
Proof.
  destruct (detect_issues repr_unused sample_state) as [output|] eqn:E;
    [|vm_compute in E; discriminate].
  destruct (detect_issues_output_shape repr_unused sample_state output E)
    as [issues [functions [O [F _]]]].
  exists output, issues. split; [reflexivity|]. split; [exact O|exact F].
Defined.

(** X16, witness: the sample state. *)
Lemma detect_issues_on_records_witness :
  detect_issues repr_unused sample_state =
  let issues :=
    text_issues sample_code ++ functions_issues repr_unused sample_functions in
  Ok [("issues", VList issues);
      ("issue_count", VInt (Z.of_nat (length issues)))].
Proof.
  exact (detect_issues_on_records repr_unused sample_code sample_functions
           sample_state eq_refl eq_refl).
Defined.

(** X17, witness: the sample text has a bare [except:]. *)
Lemma bare_except_reported_iff_witness :
  exists issues,
    detect_issues repr_unused sample_state
    = Ok [("issues", VList issues);
          ("issue_count", VInt (Z.of_nat (length issues)))] /\
    In exception_issue issues.
Proof.
  destruct (bare_except_reported_iff repr_unused sample_code sample_functions
              sample_state eq_refl eq_refl) as [issues [E [_ B]]].
  exists issues. split; [exact E|]. apply B.
  exists "try: pass; ", " pass". now left.
Defined.

(** A state with neither key. *)
Lemma detect_issues_defaults_witness :
  detect_issues repr_unused [("quality_threshold", VInt 70)]
  = Ok [("issues", VList []); ("issue_count", VInt 0)].
Proof.
  exact (detect_issues_defaults repr_unused [("quality_threshold", VInt 70)]
           eq_refl eq_refl).
Defined.

(** X18, witness: a record of nine parameters and no name, behind the
    sample records. *)
Lemma unnamed_function_raises_witness :
  detect_issues repr_unused
    [("code", VStr sample_code);
     ("functions",
      VList (map function_record sample_functions
             ++ [VDict [("args_count", VInt 9)]]))]
  = Raise (KeyError "name").
Proof.
  apply (unnamed_function_raises repr_unused sample_code sample_functions
           [("args_count", VInt 9)] 9 []
           [("code", VStr sample_code);
            ("functions",
             VList (map function_record sample_functions
                    ++ [VDict [("args_count", VInt 9)]]))]
           eq_refl eq_refl eq_refl eq_refl).
  lia.
Defined.

(** * Facts about the engine on a live state *)

Module LiveFacts.
Import Live.

Section Facts.
Variable now : nat -> string.
Variable py_eval : Eval.
Variable tool_registry : gmap string Callable.

Lemma live_loop_leave fuel self state current_node log tick why :
  loop_guard current_node state = Ok (Leave why) ->
  run_loop now py_eval tool_registry fuel self state current_node log tick =
  Some (Ok (state, log, tick, why)).
Proof. intros G. destruct fuel; simpl; now rewrite G. Qed.

Lemma live_loop_raise fuel self state current_node log tick e :
  loop_guard current_node state = Raise e ->
  run_loop now py_eval tool_registry fuel self state current_node log tick =
  Some (Raise e).
Proof. intros G. destruct fuel; simpl; now rewrite G. Qed.

Lemma live_loop_enter fuel self state current_node log tick n :
  loop_guard current_node state = Ok (Enter n) ->
  run_loop now py_eval tool_registry (S fuel) self state current_node log tick =
  match visit now py_eval tool_registry self state n log tick with
  | Raise e => Some (Raise e)
  | Ok (state', log', next) =>
      run_loop now py_eval tool_registry fuel self state' next log' (S tick)
  end.
Proof. intros G. simpl. now rewrite G. Qed.

Hypothesis K : tools_respect_meta tool_registry.
Hypothesis E : conditions_respect_meta py_eval.

Lemma evaluate_condition_meta condition state :
  dict_get (fst (_evaluate_condition py_eval condition state)) "_meta"
  = dict_get state "_meta".
Proof.
  unfold _evaluate_condition. destruct condition as [c|]; [|reflexivity].
  destruct (String.eqb c ""); [reflexivity|].
  specialize (E c state). now destruct (py_eval c state) as [st [v|e]].
Qed.

Lemma first_active_meta out : forall state,
  dict_get (fst (first_active py_eval out state)) "_meta"
  = dict_get state "_meta".
Proof.
  induction out as [|[next_node condition] rest IH]; intros state; simpl;
    [reflexivity|].
  pose proof (evaluate_condition_meta condition state) as H.
  destruct (_evaluate_condition py_eval condition state) as [st v].
  simpl in H. destruct (py_truthy v); [exact H|]. now rewrite IH.
Qed.

Lemma get_next_node_meta self n state :
  dict_get (fst (_get_next_node py_eval self n state)) "_meta"
  = dict_get state "_meta".
Proof.
  unfold _get_next_node. destruct (edges self !! n); [|reflexivity].
  apply first_active_meta.
Qed.

(** A visit either raises or adds one entry and raises the counter by
    one, the rest of [_meta] staying as it was. *)
Lemma visit_meta self state n log tick m i :
  dict_get state "_meta" = Some (VDict m) ->
  dict_get m "iterations" = Some (VInt i) ->
  (exists e, visit now py_eval tool_registry self state n log tick = Raise e)
  \/
  exists state' entry next,
    visit now py_eval tool_registry self state n log tick
    = Ok (state', log ++ [VDict entry], next) /\
    dict_get state' "_meta"
    = Some (VDict (dict_set m "iterations" (VInt (i + 1)))) /\
    is_log_entry (VDict entry) = true /\
    dict_get entry "node" = Some (VStr n).
Proof.
  intros Hm Hi. unfold visit.
  destruct (dict_getitem (nodes self) n) as [cfg|e]; simpl; [|eauto].
  rewrite (meta_get_dict _ _ _ Hm). unfold dict_getitem. rewrite Hi. simpl.
  assert (Step : forall st1 entry,
    dict_get st1 "_meta" = Some (VDict m) ->
    is_log_entry (VDict entry) = true ->
    dict_get entry "node" = Some (VStr n) ->
    exists state' next,
      (st2 <- bump_iterations st1 ;;
       (let (st3, next) := _get_next_node py_eval self n st2 in
        Ok (st3, log ++ [VDict entry], next)))
      = Ok (state', log ++ [VDict entry], next) /\
      dict_get state' "_meta"
      = Some (VDict (dict_set m "iterations" (VInt (i + 1))))).
  { intros st1 entry H1 _ _. rewrite (bump_iterations_int _ _ _ H1 Hi).
    simpl.
    pose proof (get_next_node_meta self n
                  (dict_set st1 "_meta"
                     (VDict (dict_set m "iterations" (VInt (i + 1)))))) as G.
    destruct (_get_next_node py_eval self n _) as [st3 next]. simpl in G.
    exists st3, next. split; [reflexivity|].
    rewrite G. apply dict_get_set_eq. }
  unfold invoke.
  destruct (tool_registry !! tool cfg) as [f|] eqn:L.
  - destruct (K _ f state (params cfg) L) as [Kin Kout].
    destruct (f state (params cfg)) as [st1 [[output|msg]|e]]; simpl in *.
    + right.
      destruct (Step (dict_update st1 output)
                  [("node", VStr n); ("timestamp", VStr (now tick));
                   ("iteration", VInt i); ("status", VStr "success");
                   ("output", VDict output)]) as [state' [next [V M]]];
        try reflexivity.
      { rewrite dict_get_update_absent by now apply Kout. congruence. }
      eauto 10.
    + right.
      destruct (Step (dict_set st1 "_error" (VStr msg))
                  [("node", VStr n); ("timestamp", VStr (now tick));
                   ("iteration", VInt i); ("status", VStr "error");
                   ("error", VStr msg)]) as [state' [next [V M]]];
        try reflexivity.
      { rewrite dict_get_set_ne by discriminate. congruence. }
      eauto 10.
    + left. eauto.
  - right. simpl.
    destruct (Step state
                [("node", VStr n); ("timestamp", VStr (now tick));
                 ("iteration", VInt i); ("status", VStr "tool_not_found")])
      as [state' [next [V M]]]; try reflexivity; [assumption|].
    eauto 10.
Qed.

(** With the counter at [i] and the cap at [cap] the loop ends within
    [cap - i] visits, whatever the graph. *)
Lemma live_loop_bounded (k : nat) :
  forall self state current_node log tick m i cap,
    dict_get state "_meta" = Some (VDict m) ->
    dict_get m "iterations" = Some (VInt i) ->
    dict_get m "max_iterations" = Some (VInt cap) ->
    (Z.to_nat (cap - i) <= k)%nat ->
    exists r,
      (forall fuel, (k <= fuel)%nat ->
         run_loop now py_eval tool_registry fuel self state current_node log
           tick = Some r) /\
      (forall state' log' tick' why, r = Ok (state', log', tick', why) ->
         (length log' <= length log + Z.to_nat (cap - i))%nat).
Proof.
  induction k as [|k IH]; intros self state current_node log tick m i cap
    Hm Hi Hc Hk;
    (destruct (loop_guard current_node state) as [[n|why]|e] eqn:G;
     [ | exists (Ok (state, log, tick, why)); split;
         [intros; now apply live_loop_leave | intros ? ? ? ? [= <- <- _ _]; lia]
       | exists (Raise e); split;
         [intros; now apply live_loop_raise | discriminate] ]);
    pose proof (loop_guard_enter _ _ _ G) as ->;
    pose proof G as G'; rewrite (loop_guard_counts _ _ _ _ _ Hm Hi Hc) in G';
    destruct (String.eqb n ""); try discriminate;
    destruct (i <? cap) eqn:Lt; try discriminate;
    apply Z.ltb_lt in Lt; [lia|].
  destruct (visit_meta self state n log tick m i Hm Hi)
    as [[e V]|[state' [entry [next [V [M _]]]]]].
  - exists (Raise e). split; [|discriminate].
    intros [|fuel] Hf; [lia|]. now rewrite (live_loop_enter _ _ _ _ _ _ _ G), V.
  - destruct (IH self state' next (log ++ [VDict entry]) (S tick)
                (dict_set m "iterations" (VInt (i + 1))) (i + 1) cap M)
      as [r [Hr Hlen]].
    + apply dict_get_set_eq.
    + now rewrite dict_get_set_ne.
    + lia.
    + exists r. split.
      * intros [|fuel] Hf; [lia|].
        rewrite (live_loop_enter _ _ _ _ _ _ _ G), V. apply Hr. lia.
      * intros ? ? ? ? R. specialize (Hlen _ _ _ _ R).
        rewrite length_app in Hlen. simpl in Hlen. lia.
Qed.

(** The counter at the end of the loop is the counter at its start plus
    the number of entries added, and it does not pass the cap. *)
Lemma live_loop_counter fuel :
  forall self state current_node log tick m i cap state' log' tick' why,
    dict_get state "_meta" = Some (VDict m) ->
    dict_get m "iterations" = Some (VInt i) ->
    dict_get m "max_iterations" = Some (VInt cap) ->
    i <= cap ->
    run_loop now py_eval tool_registry fuel self state current_node log tick
    = Some (Ok (state', log', tick', why)) ->
    exists added,
      log' = log ++ added /\
      tick' = (tick + length added)%nat /\
      forallb is_log_entry added = true /\
      dict_get state' "_meta"
      = Some (VDict (dict_set m "iterations"
                       (VInt (i + Z.of_nat (length added))))) /\
      i + Z.of_nat (length added) <= cap /\
      (why = MaxIterationsExceeded -> i + Z.of_nat (length added) = cap).
Proof.
  assert (Stop : forall state log tick m i cap why
                   (current_node : option string),
    dict_get state "_meta" = Some (VDict m) ->
    dict_get m "iterations" = Some (VInt i) ->
    dict_get m "max_iterations" = Some (VInt cap) ->
    i <= cap ->
    loop_guard current_node state = Ok (Leave why) ->
    exists added : list value,
      log = log ++ added /\
      tick = (tick + length added)%nat /\
      forallb is_log_entry added = true /\
      dict_get state "_meta"
      = Some (VDict (dict_set m "iterations"
                       (VInt (i + Z.of_nat (length added))))) /\
      i + Z.of_nat (length added) <= cap /\
      (why = MaxIterationsExceeded -> i + Z.of_nat (length added) = cap)).
  { intros state log tick m i cap why current_node Hm Hi Hc Hle G.
    exists []. simpl. rewrite app_nil_r, Z.add_0_r, Nat.add_0_r.
    rewrite (dict_set_same _ _ _ Hi). repeat split; try assumption.
    intros ->. destruct current_node as [n|]; [|discriminate G].
    rewrite (loop_guard_counts _ _ _ _ _ Hm Hi Hc) in G.
    destruct (String.eqb n ""); [discriminate|].
    destruct (i <? cap) eqn:Lt; [discriminate|].
    apply Z.ltb_ge in Lt. lia. }
  induction fuel as [|fuel IH]; intros self state current_node log tick m i
    cap state' log' tick' why Hm Hi Hc Hle; simpl;
    destruct (loop_guard current_node state) as [[n|w]|e] eqn:G;
    try discriminate;
    try (intros [= <- <- <- <-]; now apply (Stop _ _ _ _ _ _ _ current_node)).
  pose proof (loop_guard_enter _ _ _ G) as ->.
  pose proof G as G'. rewrite (loop_guard_counts _ _ _ _ _ Hm Hi Hc) in G'.
  destruct (String.eqb n "") eqn:En; [discriminate|].
  destruct (i <? cap) eqn:Lt; [|discriminate]. apply Z.ltb_lt in Lt.
  destruct (visit_meta self state n log tick m i Hm Hi)
    as [[e V]|[st1 [entry [next [V [M [He _]]]]]]]; rewrite V;
    [discriminate|].
  intros R.
  eapply IH with (m := dict_set m "iterations" (VInt (i + 1)))
                 (i := i + 1) (cap := cap) in R;
    [| exact M | apply dict_get_set_eq | now rewrite dict_get_set_ne | lia].
  destruct R as [added [-> [-> [F [Hmeta [Hle' Hmax]]]]]].
  exists (VDict entry :: added). rewrite <- app_assoc. simpl length.
  rewrite dict_set_set in Hmeta.
  replace (i + Z.of_nat (S (length added)))
    with (i + 1 + Z.of_nat (length added)) by lia.
  split; [reflexivity|]. split; [lia|]. split.
  - cbn [forallb]. now rewrite He, F.
  - now repeat split.
Qed.

(** The run a returning [execute] gives *)
Lemma live_meta_shape fuel self initial_state out :
  execute now py_eval tool_registry fuel self initial_state = Some (Ok out) ->
  exists added,
    run_log out = execution_log self ++ added /\
    forallb is_log_entry added = true /\
    (length added <= 50)%nat /\
    (exit_status out = MaxIterationsExceeded -> length added = 50%nat) /\
    dict_get (final_state out) "_meta"
    = Some (VDict [("start_time", VStr (now 0%nat));
                   ("iterations", VInt (Z.of_nat (length added)));
                   ("max_iterations", VInt 50);
                   ("end_time", VStr (now (S (length added))));
                   ("execution_log", VList (run_log out))]).
Proof.
  unfold execute.
  destruct (run_loop now py_eval tool_registry fuel self
              (start_state now initial_state) (entry_node self)
              (execution_log self) 1)
    as [[[[[state log] tick] why]|]|] eqn:R; try discriminate.
  destruct (finish now state log tick) as [state'|] eqn:F; simpl;
    [|discriminate].
  intros [= <-]. simpl.
  eapply live_loop_counter with
      (m := [("start_time", VStr (now 0%nat)); ("iterations", VInt 0);
             ("max_iterations", VInt 50)]) (i := 0) (cap := 50) in R;
    [| apply dict_get_set_eq | reflexivity | reflexivity | lia].
  destruct R as [added [-> [-> [Fa [Hmeta [Hle Hmax]]]]]].
  exists added. split; [reflexivity|]. split; [exact Fa|]. split; [lia|].
  split; [intros X; specialize (Hmax X); lia|].
  destruct (finish_spec _ _ _ _ _ F) as [m [Hm ->]].
  rewrite Hmeta in Hm. injection Hm as <-.
  rewrite dict_get_set_eq. reflexivity.
Qed.

(** C1 (as amended): provided that no registered tool returns a mapping
    with a [_meta] key, and that no tool call and no condition evaluation
    changes the [_meta] entry of the state it is handed, [execute] ends on
    every graph and every initial state -- by returning or by raising --
    after at most 50 visits: any fuel from 50 on gives one and the same
    outcome, and a returned run has appended at most 50 entries to the
    engine's log.  Tools and conditions may change every other key in
    place.  The cap is the constant 50. *)
Theorem bounded_when_meta_is_respected self initial_state :
  exists r,
    (forall fuel, (50 <= fuel)%nat ->
       execute now py_eval tool_registry fuel self initial_state = Some r)
    /\ (forall out, r = Ok out ->
          (length (run_log out) <= length (execution_log self) + 50)%nat).
Proof.
  assert (Hm : dict_get (start_state now initial_state) "_meta"
               = Some (initial_meta now)) by apply dict_get_set_eq.
  assert (Hk : (Z.to_nat (50 - 0) <= 50)%nat)
    by (change (Z.to_nat (50 - 0)) with 50%nat; lia).
  destruct (live_loop_bounded 50 self (start_state now initial_state)
              (entry_node self) (execution_log self) 1%nat _ 0 50
              Hm eq_refl eq_refl Hk) as [r [Hr Hlen]].
  change (Z.to_nat (50 - 0)) with 50%nat in Hlen.
  destruct r as [[[[state log] tick] why]|e].
  - eexists. split.
    + intros fuel Hf. unfold execute. rewrite (Hr fuel Hf). reflexivity.
    + specialize (Hlen _ _ _ _ eq_refl).
      destruct (finish now state log tick); simpl; [|discriminate].
      intros out [= <-]. simpl. lia.
  - exists (Raise e). split; [|discriminate].
    intros fuel Hf. unfold execute. now rewrite (Hr fuel Hf).
Qed.

(** X2: when tools and conditions respect [_meta] as in C1, the [_meta]
    entry of the returned state is fully determined by the number of
    visits of the run: the start time is the first clock reading,
    [iterations] is the number of entries the run added to the log, the
    cap is 50, the end time is the reading after the last visit, and the
    log is the returned one. *)
Theorem counter_counts_visits fuel self initial_state out :
  execute now py_eval tool_registry fuel self initial_state = Some (Ok out) ->
  exists added,
    run_log out = execution_log self ++ added /\
    dict_get (final_state out) "_meta"
    = Some (VDict [("start_time", VStr (now 0%nat));
                   ("iterations", VInt (Z.of_nat (length added)));
                   ("max_iterations", VInt 50);
                   ("end_time", VStr (now (S (length added))));
                   ("execution_log", VList (run_log out))]).
Proof.
  intros R.
  destruct (live_meta_shape _ _ _ _ R) as [added [L [_ [_ [_ M]]]]].
  now exists added.
Qed.

(** X3: when tools and conditions respect [_meta] as in C1, a run adds
    at most 50 log entries; it is left on the iteration cap only after
    exactly 50 visits, and a run of fewer than 50 visits is
    [Completed]. *)
Theorem halted_after_fifty_visits fuel self initial_state out :
  execute now py_eval tool_registry fuel self initial_state = Some (Ok out) ->
  exists added,
    run_log out = execution_log self ++ added /\
    (length added <= 50)%nat /\
    (exit_status out = MaxIterationsExceeded -> length added = 50%nat) /\
    ((length added < 50)%nat -> exit_status out = Completed).
Proof.
  intros R.
  destruct (live_meta_shape _ _ _ _ R) as [added [L [_ [Hle [Hmax _]]]]].
  exists added. repeat split; try assumption.
  intros Hlt. destruct (exit_status out); [reflexivity|].
  specialize (Hmax eq_refl). lia.
Qed.

(** X13: runs through [run_graph] do not share a log.  Each call builds
    its own engine, so when tools and conditions respect [_meta] as in C1
    the log of every response holds the entries of that run only: at most
    50, each with one of the three statuses, and as many as the counter
    of the returned state says. *)
Theorem run_graph_log_is_fresh fuel uuid created_at request db db' response :
  run_graph now py_eval tool_registry fuel uuid created_at request db
  = Some (db', inr response) ->
  (length (response_execution_log response) <= 50)%nat /\
  forallb is_log_entry (response_execution_log response) = true /\
  meta_get (response_final_state response) "iterations"
  = Ok (VInt (Z.of_nat (length (response_execution_log response)))).
Proof.
  unfold run_graph.
  destruct (workflow_storage db !! request_graph_id request) as [g|];
    [|discriminate].
  destruct (execute _ _ _ _ _ _) as [[out|e]|] eqn:R; try discriminate.
  intros [= _ <-]. simpl.
  destruct (live_meta_shape _ _ _ _ R) as [added [L [F [Hle [_ M]]]]].
  simpl in L. rewrite L. split; [exact Hle|]. split; [exact F|].
  now rewrite (meta_get_dict _ _ _ M).
Qed.
End Facts.

Section MergeFacts.
Variable now : nat -> string.
Variable py_eval : Eval.
Variable tool_registry : gmap string Callable.

(** A key that no condition changes is the same after selection. *)
Lemma evaluate_condition_key k condition state :
  (forall c st, dict_get (fst (py_eval c st)) k = dict_get st k) ->
  dict_get (fst (_evaluate_condition py_eval condition state)) k
  = dict_get state k.
Proof.
  intros H. unfold _evaluate_condition.
  destruct condition as [c|]; [|reflexivity].
  destruct (String.eqb c ""); [reflexivity|].
  specialize (H c state). now destruct (py_eval c state) as [st [v|e]].
Qed.

Lemma get_next_node_key k self n state :
  (forall c st, dict_get (fst (py_eval c st)) k = dict_get st k) ->
  dict_get (fst (_get_next_node py_eval self n state)) k = dict_get state k.
Proof.
  intros H. unfold _get_next_node. destruct (edges self !! n) as [out|];
    [|reflexivity].
  revert state. induction out as [|[next_node condition] rest IH];
    intros state; simpl; [reflexivity|].
  pose proof (evaluate_condition_key k condition state H) as Hc.
  destruct (_evaluate_condition py_eval condition state) as [st v].
  simpl in Hc. destruct (py_truthy v); [exact Hc|]. now rewrite IH.
Qed.

(** C4 (as amended): the merge of a tool's returned mapping is a plain
    shallow overwrite.  At a visit whose tool returns a mapping, the state
    after the tool step is the state the tool left with every returned key
    replaced by the returned value, [_meta] included: nothing protects the
    reserved entry.  When the mapping has no [_meta] key, the tool has not
    changed [_meta] in place and no condition changes it, the visit
    returns, [_meta] differs after it from [_meta] before it only by the
    counter, raised by one, and every other key that no condition changes
    reads the returned value if the mapping has it and the value the tool
    left otherwise. *)
Theorem merge_overwrites_returned_keys self state n log tick cfg f state1
    output m i :
  dict_get (nodes self) n = Some cfg ->
  tool_registry !! tool cfg = Some f ->
  f state (params cfg) = (state1, Ok (Returned output)) ->
  dict_get state "_meta" = Some (VDict m) ->
  dict_get m "iterations" = Some (VInt i) ->
  let merged := dict_update state1 output in
  let overwritten := fun k =>
    match dict_get (rev output) k with
    | Some v => Some v
    | None => dict_get state1 k
    end in
  let entry :=
    [("node", VStr n); ("timestamp", VStr (now tick)); ("iteration", VInt i);
     ("status", VStr "success"); ("output", VDict output)] in
  invoke tool_registry cfg state
    [("node", VStr n); ("timestamp", VStr (now tick)); ("iteration", VInt i)]
  = Ok (merged, entry) /\
  (forall k, dict_get merged k = overwritten k) /\
  (dict_get output "_meta" = None ->
   dict_get state1 "_meta" = dict_get state "_meta" ->
   conditions_respect_meta py_eval ->
   exists state' next,
     visit now py_eval tool_registry self state n log tick
     = Ok (state', log ++ [VDict entry], next) /\
     dict_get state' "_meta"
     = Some (VDict (dict_set m "iterations" (VInt (i + 1)))) /\
     forall k, k <> "_meta" ->
       (forall c st, dict_get (fst (py_eval c st)) k = dict_get st k) ->
       dict_get state' k = overwritten k).
Proof.
  intros N L C Hm Hi merged overwritten entry.
  assert (I : invoke tool_registry cfg state
                [("node", VStr n); ("timestamp", VStr (now tick));
                 ("iteration", VInt i)] = Ok (merged, entry)).
  { unfold invoke.
    destruct (tool_registry !! tool cfg) as [g|]; [|discriminate].
    assert (g = f) as -> by congruence. now rewrite C. }
  split; [exact I|]. split; [intros k; apply dict_get_update|].
  intros O T Ec. unfold visit, dict_getitem at 1. rewrite N. simpl.
  rewrite (meta_get_dict _ _ _ Hm). unfold dict_getitem. rewrite Hi. simpl.
  rewrite I. simpl.
  assert (M1 : dict_get merged "_meta" = Some (VDict m)).
  { unfold merged. rewrite dict_get_update_absent by assumption. congruence. }
  rewrite (bump_iterations_int _ _ _ M1 Hi). simpl.
  pose proof (get_next_node_key "_meta" self n
                (dict_set merged "_meta"
                   (VDict (dict_set m "iterations" (VInt (i + 1))))) Ec) as G.
  pose proof (fun k => get_next_node_key k self n
                (dict_set merged "_meta"
                   (VDict (dict_set m "iterations" (VInt (i + 1)))))) as Gk.
  destruct (_get_next_node py_eval self n _) as [state' next].
  simpl in G, Gk. exists state', next. split; [reflexivity|]. split.
  - rewrite G. apply dict_get_set_eq.
  - intros k Hk Hc. rewrite (Gk k Hc).
    rewrite dict_get_set_ne by congruence. apply dict_get_update.
Qed.
End MergeFacts.

(** *** The examples *)

Lemma counting_registry_respects_meta : tools_respect_meta counting_registry.
Proof.
  intros tool_name f state params L. unfold counting_registry in L.
  apply lookup_insert_Some in L as [[_ <-]|[_ L]];
    [|rewrite lookup_empty in L; discriminate].
  unfold add_30_counting. simpl. split.
  - destruct (py_add_int _ 1); [|reflexivity].
    now rewrite dict_get_set_ne.
  - intros output.
    destruct (dict_get state "score") as [v|]; [|discriminate].
    destruct (py_add_int v 30); [|discriminate].
    now intros [= <-].
Qed.

Lemma eval_marking_keeps k :
  k <> "checked" ->
  forall c state, dict_get (fst (eval_marking c state)) k = dict_get state k.
Proof.
  intros Hk c state. unfold eval_marking.
  destruct (String.eqb c _); [|reflexivity].
  simpl. now rewrite dict_get_set_ne by congruence.
Qed.

Lemma eval_marking_respects_meta : conditions_respect_meta eval_marking.
Proof. intros c state. now apply eval_marking_keeps. Qed.

(** A condition that changes [_meta] in place moves the cap: the loop of
    one unregistered node on such a condition is visited 60 times. *)
Example cap_raised_in_place :
  exists out,
    execute tick_clock eval_cap_raising ∅ 60 cap_raising_engine []
    = Some (Ok out) /\
    length (run_log out) = 60%nat /\
    exit_status out = MaxIterationsExceeded /\
    meta_get (final_state out) "max_iterations" = Ok (VInt 60).
Proof. eexists. split; [vm_compute; reflexivity|]. repeat split. Qed.

(** The cap is reached by an unconditional self-loop. *)
Example live_cap_is_reached :
  exists out,
    execute tick_clock eval_marking counting_registry 50 looping_engine
      [("score", VInt 0)] = Some (Ok out) /\
    length (run_log out) = 50%nat /\
    exit_status out = MaxIterationsExceeded /\
    dict_get (final_state out) "calls" = Some (VInt 50).
Proof. eexists. split; [vm_compute; reflexivity|]. repeat split. Qed.

(** The run of the marking graph from a score of 50 *)
Lemma marking_run :
  exists out,
    execute tick_clock eval_marking counting_registry 1 marking_engine
      [("score", VInt 50)] = Some (Ok out) /\
    length (run_log out) = 1%nat /\
    dict_get (final_state out) "checked" = Some (VBool true) /\
    dict_get (final_state out) "calls" = Some (VInt 1).
Proof. eexists. split; [vm_compute; reflexivity|]. repeat split. Qed.

(** C1, witness: the marking graph, whose tool and condition both change
    the state in place and leave [_meta] alone. *)
Lemma bounded_when_meta_is_respected_witness :
  tools_respect_meta counting_registry /\
  conditions_respect_meta eval_marking /\
  exists r,
    (forall fuel, (50 <= fuel)%nat ->
       execute tick_clock eval_marking counting_registry fuel marking_engine
         [("score", VInt 50)] = Some r)
    /\ (forall out, r = Ok out ->
          (length (run_log out)
           <= length (execution_log marking_engine) + 50)%nat).
Proof.
  split; [exact counting_registry_respects_meta|].
  split; [exact eval_marking_respects_meta|].
  exact (bounded_when_meta_is_respected tick_clock eval_marking
           counting_registry counting_registry_respects_meta
           eval_marking_respects_meta marking_engine [("score", VInt 50)]).
Defined.

(** C4, witness: the first visit of the marking graph. *)
Lemma merge_overwrites_returned_keys_witness :
  exists state' log' next,
    visit tick_clock eval_marking counting_registry marking_engine
      (start_state tick_clock [("score", VInt 50); ("code", VStr "x")])
      "improve" [] 1 = Ok (state', log', next) /\
    dict_get state' "_meta"
    = Some (VDict [("start_time", VStr (tick_clock 0%nat));
                   ("iterations", VInt 1); ("max_iterations", VInt 50)]) /\
    dict_get state' "score" = Some (VInt 80) /\
    dict_get state' "code" = Some (VStr "x") /\
    dict_get state' "calls" = Some (VInt 1).
Proof.
  destruct (merge_overwrites_returned_keys tick_clock eval_marking
              counting_registry marking_engine
              (start_state tick_clock [("score", VInt 50); ("code", VStr "x")])
              "improve" [] 1%nat (node "improve" "add_30") add_30_counting
              _ [("score", VInt 80)] _ 0
              eq_refl eq_refl eq_refl eq_refl eq_refl)
    as [_ [_ V]].
  destruct (V eq_refl eq_refl eval_marking_respects_meta)
    as [state' [next [R [M F]]]].
  exists state'. do 2 eexists. split; [exact R|]. split; [exact M|].
  split; [|split].
  - exact (F "score" ltac:(discriminate)
             (eval_marking_keeps "score" ltac:(discriminate))).
  - exact (F "code" ltac:(discriminate)
             (eval_marking_keeps "code" ltac:(discriminate))).
  - exact (F "calls" ltac:(discriminate)
             (eval_marking_keeps "calls" ltac:(discriminate))).
Defined.

(** X2, witness: the run of the marking graph. *)
Lemma counter_counts_visits_witness :
  exists out added,
    execute tick_clock eval_marking counting_registry 1 marking_engine
      [("score", VInt 50)] = Some (Ok out) /\
    run_log out = execution_log marking_engine ++ added /\
    meta_get (final_state out) "iterations"
    = Ok (VInt (Z.of_nat (length added))).
Proof.
  destruct marking_run as [out [R _]].
  destruct (counter_counts_visits tick_clock eval_marking counting_registry
              counting_registry_respects_meta eval_marking_respects_meta
              _ _ _ _ R) as [added [L M]].
  exists out, added. split; [exact R|]. split; [exact L|].
  now rewrite (meta_get_dict _ _ _ M).
Defined.

(** X3, witness: the unconditional self-loop, which reaches the cap. *)
Lemma halted_after_fifty_visits_witness :
  exists out,
    execute tick_clock eval_marking counting_registry 50 looping_engine
      [("score", VInt 0)] = Some (Ok out) /\
    exit_status out = MaxIterationsExceeded /\
    length (run_log out) = 50%nat.
Proof.
  destruct live_cap_is_reached as [out [R [_ [S _]]]].
  destruct (halted_after_fifty_visits tick_clock eval_marking
              counting_registry counting_registry_respects_meta
              eval_marking_respects_meta _ _ _ _ R)
    as [added [L [_ [Hmax _]]]].
  exists out. split; [exact R|]. split; [exact S|].
  rewrite L, length_app, (Hmax S). reflexivity.
Defined.

(** X13, witness: the marking graph created on an empty server, then
    run. *)
Lemma run_graph_log_is_fresh_witness :
  exists db' response,
    run_graph tick_clock eval_marking counting_registry 1 "run-1" "t2"
      {| request_graph_id := "graph-1";
         request_initial_state := [("score", VInt 50)] |}
      (fst (create_graph "graph-1" "t1" marking_request empty_storage))
    = Some (db', inr response) /\
    (length (response_execution_log response) <= 50)%nat.
Proof.
  destruct (run_graph tick_clock eval_marking counting_registry 1 "run-1"
              "t2"
              {| request_graph_id := "graph-1";
                 request_initial_state := [("score", VInt 50)] |}
              (fst (create_graph "graph-1" "t1" marking_request
                      empty_storage)))
    as [[db' [x|response]]|] eqn:R; [vm_compute in R; discriminate| |
                                     vm_compute in R; discriminate].
  exists db', response. split; [reflexivity|].
  exact (proj1 (run_graph_log_is_fresh tick_clock eval_marking
                  counting_registry counting_registry_respects_meta
                  eval_marking_respects_meta 1 "run-1" "t2" _ _ db' response
                  R)).
Defined.
End LiveFacts.

(** ** The two engines agree on collaborators that only read the state

    The statements made on the first engine are statements on [main.py]
    run with tools and conditions that leave the state they are handed as
    it is and raise nothing but [Exception]s. *)

Section Agreement.
Variable now : nat -> string.
Variable py_eval : string -> pydict -> eval_outcome.
Variable tool_registry : gmap string Callable.

Lemma reading_get_next_node self current_node state :
  Live._get_next_node (Live.reading_eval py_eval) self current_node state
  = (state, _get_next_node py_eval self current_node state).
Proof.
  unfold Live._get_next_node, _get_next_node.
  destruct (edges self !! current_node) as [out|]; [|reflexivity].
  induction out as [|[next_node condition] rest IH]; simpl; [reflexivity|].
  assert (C : Live._evaluate_condition (Live.reading_eval py_eval) condition
                state
              = (state, _evaluate_condition py_eval condition state)).
  { unfold Live._evaluate_condition, _evaluate_condition, Live.reading_eval.
    destruct condition as [c|]; [|reflexivity].
    destruct (String.eqb c ""); [reflexivity|].
    now destruct (py_eval c state). }
  rewrite C. now destruct (py_truthy _).
Qed.

Lemma reading_invoke node_config state log_entry :
  Live.invoke (Live.reading_tool <$> tool_registry) node_config state
    log_entry
  = Ok (invoke tool_registry node_config state log_entry).
Proof.
  unfold Live.invoke, invoke. rewrite lookup_fmap. unfold Callable in *.
  destruct (tool_registry !! tool node_config) as [f|]; simpl;
    [|reflexivity].
  unfold Live.reading_tool. now destruct (f state (params node_config)).
Qed.

Lemma reading_visit self state current_node log tick :
  Live.visit now (Live.reading_eval py_eval)
    (Live.reading_tool <$> tool_registry) self state current_node log tick
  = visit now py_eval tool_registry self state current_node log tick.
Proof.
  unfold Live.visit, visit.
  destruct (dict_getitem (nodes self) current_node) as [cfg|]; [|reflexivity].
  simpl. destruct (meta_get state "iterations") as [i|]; [|reflexivity].
  simpl. rewrite reading_invoke. simpl.
  destruct (invoke tool_registry cfg state _) as [state1 entry].
  destruct (bump_iterations state1) as [state2|]; [|reflexivity].
  simpl. now rewrite reading_get_next_node.
Qed.

Lemma reading_run_loop fuel : forall self state current_node log tick,
  Live.run_loop now (Live.reading_eval py_eval)
    (Live.reading_tool <$> tool_registry) fuel self state current_node log
    tick
  = run_loop now py_eval tool_registry fuel self state current_node log tick.
Proof.
  induction fuel as [|fuel IH]; intros self state current_node log tick;
    simpl; [reflexivity|].
  destruct (loop_guard current_node state) as [[n|why]|e]; try reflexivity.
  rewrite reading_visit.
  destruct (visit now py_eval tool_registry self state n log tick)
    as [[[state' log'] next]|e]; [apply IH|reflexivity].
Qed.

(** [execute] on tools and conditions that only read the state is the
    run of the first engine. *)
Lemma reading_execute fuel self initial_state :
  Live.execute now (Live.reading_eval py_eval)
    (Live.reading_tool <$> tool_registry) fuel self initial_state
  = execute now py_eval tool_registry fuel self initial_state.
Proof. unfold Live.execute, execute. now rewrite reading_run_loop. Qed.
End Agreement.
